(** * ROI builders of [plantcv/plantcv/roi/roi_methods.py]

    A shallow embedding of the region-of-interest builders
    ([from_binary_image], [rectangle], [circle], [ellipse], [_draw_roi],
    [multi]) and the properties of them that the specification states.

    The builders read and write the process-wide [params] object and, in debug
    mode, hand pictures to [print_image] / [plot_image]; they abort through
    [fatal_error].  All of this is threaded explicitly: a builder is a function
    from a [World] to an outcome and the [World] it leaves behind, so that the
    state left by a call that raised is as visible as the state left by one
    that returned.

    OpenCV's drawing and contour-extraction routines are not part of the
    repository.  They are kept abstract (class [Cv2]); what the drawing
    routines refuse, a negative radius or semi-axis, is raised where the
    builders call them.  Module [Reference] gives a small executable instance
    on which the builders can be run.

    The file has three parts: the embedding of the source, the vocabulary in
    which the properties are stated, and the properties themselves, which end
    with the claims C1 to C10 of the specification. *)

From Stdlib Require Import ZArith List String Ascii Bool Lia Arith.
From Stdlib Require Import DecimalString Permutation.
From Stdlib Require DecimalZ DecimalPos.
Import ListNotations.

Local Open Scope Z_scope.

(** ** Data model *)

Abbreviation Point := (Z * Z)%type.
Definition Contour : Type := list Point.

(** One hierarchy row: next sibling, previous sibling, first child, parent;
    [-1] for none.  OpenCV hands the rows of a contour set over as one array
    of shape [1 x N x 4]; a [Hierarchy] is the list of its [N] rows. *)
Definition HierarchyEntry : Type := Z * Z * Z * Z.
Definition Hierarchy : Type := list HierarchyEntry.

(** A [numpy.ndarray] of integers: its shape and its elements in row-major
    order. *)
Record ndarray : Type := mk_ndarray {
  nd_shape : list nat;
  nd_data : list Z
}.

Definition ROI : Type := list Contour * Hierarchy.

(** ** The pieces of numpy the builders use *)

(** [np.copy] *)
Definition np_copy (a : ndarray) : ndarray := a.

(** [np.shape(img)[:2]], as unpacked by [height, width = ...]: defined when
    the array has at least two axes. *)
Definition np_shape2 (a : ndarray) : option (nat * nat) :=
  match nd_shape a with
  | h :: w :: _ => Some (h, w)
  | _ => None
  end.

(** [np.zeros((height, width), dtype=np.uint8)] *)
Definition np_zeros (height width : nat) : ndarray :=
  {| nd_shape := [height; width]; nd_data := repeat 0 (height * width) |}.

Fixpoint insert_sorted (v : Z) (l : list Z) : list Z :=
  match l with
  | [] => [v]
  | u :: t =>
      if v <? u then v :: l
      else if v =? u then l
      else u :: insert_sorted v t
  end.

(** [np.unique]: the sorted distinct elements of the flattened array. *)
Definition np_unique (a : ndarray) : list Z :=
  fold_right insert_sorted [] (nd_data a).

Definition zsum (l : list Z) : Z := fold_right Z.add 0 l.

(** Row [i] and column [j] of a two-axis array. *)
Definition nd_row (a : ndarray) (w i : nat) : list Z :=
  firstn w (skipn (i * w) (nd_data a)).

Definition nd_col (a : ndarray) (h w j : nat) : list Z :=
  map (fun i => nth (i * w + j) (nd_data a) 0) (seq 0 h).

(** [np.sum(a[0, :]) + np.sum(a[-1, :]) + np.sum(a[:, 0]) + np.sum(a[:, -1])];
    [None] is the [IndexError] of indexing an axis of size 0 (or an array that
    has not two axes). *)
Definition border_sum (a : ndarray) : option Z :=
  match nd_shape a with
  | [h; w] =>
      if ((h =? 0) || (w =? 0))%nat then None
      else Some (zsum (nd_row a w 0) + zsum (nd_row a w (h - 1))
                 + zsum (nd_col a h w 0) + zsum (nd_col a h w (w - 1)))
  | _ => None
  end.

(** [cv2.cvtColor(ref_img, cv2.COLOR_GRAY2BGR)]: every grey value becomes three
    equal channels. *)
Definition cv2_cvtColor_GRAY2BGR (a : ndarray) : ndarray :=
  {| nd_shape := nd_shape a ++ [3%nat];
     nd_data := flat_map (fun v => [v; v; v]) (nd_data a) |}.

(** The vertices of [rectangle] are stored with [dtype=np.int32]. *)
Definition int32_min : Z := - 2 ^ 31.
Definition int32_max : Z := 2 ^ 31 - 1.
Definition fits_int32 (z : Z) : bool := (int32_min <=? z) && (z <=? int32_max).

(** ** Python values *)

(** [str(n)] for an [int]. *)
Definition py_str (n : Z) : string := NilZero.string_of_int (Z.to_int n).

Fixpoint ends_with_slash (s : string) : bool :=
  match s with
  | EmptyString => false
  | String c EmptyString => Ascii.eqb c "/"%char
  | String _ t => ends_with_slash t
  end.

(** [os.path.join(a, b)] (posix) for a relative [b]. *)
Definition os_path_join (a b : string) : string :=
  match a with
  | EmptyString => b
  | _ => if ends_with_slash a then (a ++ b)%string else (a ++ "/" ++ b)%string
  end.

(** [a and b] on optional integers: [a] when [a] is falsy ([None] or [0]),
    [b] otherwise. *)
Definition py_and (a b : option Z) : option Z :=
  match a with
  | None => None
  | Some 0 => Some 0
  | Some _ => b
  end.

Definition is_not_None {A : Type} (o : option A) : bool :=
  match o with Some _ => true | None => false end.

(** [range(0, n)] *)
Definition py_range (n : Z) : list Z := map Z.of_nat (seq 0 (Z.to_nat n)).

(** ** Exceptions *)

Inductive Exception : Type :=
| RuntimeError (msg : string)
| ValueError
| TypeError
| IndexError
| OverflowError
| UnboundLocalError (name : string)
| AssertionError
| Cv2Error.

Inductive Result (A : Type) : Type :=
| Ok (a : A)
| Raised (e : Exception).
Arguments Ok {A} a.
Arguments Raised {A} e.

Definition roi_outside_msg : string := "The ROI extends outside of the image!".
Definition not_binary_msg : string := "Input image is not binary!".
Definition multi_mode_msg : string :=
  ("Function can either make a grid of ROIs (user must provide nrows, ncols, spacing, and coord) "
   ++ "or take custom ROI coordinates (user must provide a list of tuples to 'coord' parameter)")%string.

(** The three kinds of error of the specification (section 7), told apart by
    the message each call site passes to [fatal_error]. *)
Definition BoundsError : Exception := RuntimeError roi_outside_msg.
Definition InvalidInputError : Exception := RuntimeError not_binary_msg.
Definition ConfigurationError : Exception := RuntimeError multi_mode_msg.

(** ** The process-wide context *)

(** Modelled from the spec: the [params] object of [plantcv.plantcv], which is
    not among the sources.  Section 3 gives it a debug mode (off, print to
    file, plot to screen; here the Python value: [None] or a string), an output
    directory and the device counter. *)
Record Params : Type := mk_Params {
  device : Z;
  debug : option string;
  debug_outdir : string
}.

(** What [_draw_roi] hands over: the copy of the reference image (grey images
    converted to three channels) with the contours drawn on it. *)
Record Picture : Type := mk_Picture {
  canvas : ndarray;
  drawn : list Contour
}.

Inductive Output : Type :=
| Printed (pic : Picture) (path : string)
| Plotted (pic : Picture).

Record World : Type := mk_World {
  params : Params;
  outputs : list Output
}.

Definition set_device (d : Z) (w : World) : World :=
  {| params := {| device := d; debug := debug (params w);
                  debug_outdir := debug_outdir (params w) |};
     outputs := outputs w |}.

Definition set_debug (m : option string) (w : World) : World :=
  {| params := {| device := device (params w); debug := m;
                  debug_outdir := debug_outdir (params w) |};
     outputs := outputs w |}.

Definition emit (o : Output) (w : World) : World :=
  {| params := params w; outputs := outputs w ++ [o] |}.

(** ** Computations over the context that may raise *)

Module Py.

Definition M (A : Type) : Type := World -> Result A * World.

Definition ret {A : Type} (a : A) : M A := fun w => (Ok a, w).

Definition bind {A B : Type} (c : M A) (k : A -> M B) : M B :=
  fun w =>
    match c w with
    | (Ok a, w') => k a w'
    | (Raised e, w') => (Raised e, w')
    end.

Definition raise {A : Type} (e : Exception) : M A := fun w => (Raised e, w).

Definition get : M World := fun w => (Ok w, w).

Definition modify (f : World -> World) : M unit := fun w => (Ok tt, f w).

Definition when (b : bool) (c : M unit) : M unit := if b then c else ret tt.

(** [for x in l: acc = body x acc] *)
Fixpoint for_each {X A : Type} (l : list X) (body : X -> A -> M A) (acc : A) : M A :=
  match l with
  | [] => ret acc
  | x :: t => bind (body x acc) (for_each t body)
  end.

End Py.

Declare Scope py_scope.
Delimit Scope py_scope with py.
Notation "x <- c ;; k" := (Py.bind c (fun x => k))
  (at level 61, c at next level, right associativity) : py_scope.
Notation "c ;; k" := (Py.bind c (fun _ => k))
  (at level 61, right associativity) : py_scope.
Local Open Scope py_scope.

Import Py.

(** Modelled from the spec: [fatal_error] of [plantcv.plantcv], which is not
    among the sources.  Section 7: every error is fatal to the current call
    and is surfaced immediately to the caller. *)
Definition fatal_error (msg : string) : M unit := raise (RuntimeError msg).

(** Modelled from the spec: [print_image] and [plot_image] of
    [plantcv.plantcv], which are not among the sources.  Section 6: persist
    an image to a path; render an image to the interactive display.  Both are
    modelled as completing; the errors of a primitive that cannot persist or
    render (section 7) are not part of the context, and neither are those of
    the OpenCV calls inside [_draw_roi].  No builder reaches either of them
    unless the debug mode is on. *)
Definition print_image (pic : Picture) (path : string) : M unit :=
  modify (emit (Printed pic path)).

Definition plot_image (pic : Picture) : M unit :=
  modify (emit (Plotted pic)).

(** [params.device += 1] *)
Definition incr_device : M unit :=
  modify (fun w => set_device (device (params w) + 1) w).

(** ** OpenCV *)

Inductive RetrievalModes : Type := RETR_EXTERNAL | RETR_TREE.
Inductive ContourApproximationModes : Type := CHAIN_APPROX_NONE | CHAIN_APPROX_SIMPLE.

(** The three OpenCV routines the builders call, as functions on arrays.
    - [cv2_circle img center radius color thickness]
    - [cv2_ellipse img center axes angle startAngle endAngle color thickness]
    - [cv2_findContours image mode method], already cut down to its last two
      results ([... [-2:]]): the contours and the hierarchy.
    [cv2_circle] and [cv2_ellipse] are the drawing proper, on arguments the
    routine accepts; the arguments it refuses ([Cv2Error], Python's
    [cv2.error]) are told apart where the builders call it ([call_cv2_circle],
    [call_cv2_ellipse]). *)
Class Cv2 : Type := {
  cv2_circle : ndarray -> Z * Z -> Z -> Z -> Z -> ndarray;
  cv2_ellipse : ndarray -> Z * Z -> Z * Z -> Z -> Z -> Z -> Z -> Z -> ndarray;
  cv2_findContours : ndarray -> RetrievalModes -> ContourApproximationModes -> ROI
}.

Notation "' pat <- c ;; k" :=
  (Py.bind c (fun x => match x with pat => k end))
  (at level 61, pat pattern, c at next level, right associativity) : py_scope.

(** [height, width = np.shape(img)[:2]] *)
Definition unpack_shape (img : ndarray) : M (nat * nat) :=
  match np_shape2 img with
  | Some hw => ret hw
  | None => raise ValueError
  end.

(** [np.array([[pt1], [pt2], [pt3], [pt4]], dtype=np.int32)]: NumPy 2 refuses
    a Python integer that the element type cannot hold with an
    [OverflowError] (earlier releases stored such a value wrapped to 32 bits
    when it fits 64 bits); either way the array holds the coordinates as given
    only when they fit. *)
Definition np_array_int32 (pts : list Point) : M Contour :=
  if forallb (fun p => fits_int32 (fst p) && fits_int32 (snd p)) pts
  then ret pts
  else raise OverflowError.

(** Subscripting and iterating over optional arguments: [None] raises
    [TypeError]. *)
Definition not_None {A : Type} (o : option A) : M A :=
  match o with
  | Some a => ret a
  | None => raise TypeError
  end.

(** [coord] is either one tuple or a list of tuples. *)
Inductive Coord : Type :=
| CoordTuple (x y : Z)
| CoordList (l : list (Z * Z)).

(** The local variables of [multi] that its loops update. *)
Record Locals : Type := mk_Locals {
  l_rois : list ROI;
  l_bin_img : ndarray;
  l_roi_contour : list (list Contour);
  l_roi_hierarchy : list Hierarchy;
  l_roi_contour1 : option (list Contour)
}.

(** ** The builders *)

Section Builders.

Context {cv : Cv2}.

(** [cv2.circle(img, center, radius, color, thickness)] as the builders call
    it.  OpenCV checks the arguments before it touches the array
    ([CV_Assert( radius >= 0 && ... )]) and raises [cv2.error] on a negative
    radius. *)
Definition call_cv2_circle (img : ndarray) (center : Z * Z) (radius color thickness : Z)
    : M ndarray :=
  if radius <? 0 then raise Cv2Error
  else ret (cv2_circle img center radius color thickness).

(** [cv2.ellipse(img, center, axes, angle, startAngle, endAngle, color,
    thickness)] as [ellipse] calls it: [CV_Assert( axes.width >= 0 &&
    axes.height >= 0 && ... )], so a negative semi-axis raises [cv2.error]. *)
Definition call_cv2_ellipse (img : ndarray) (center axes : Z * Z)
    (angle startAngle endAngle color thickness : Z) : M ndarray :=
  if (fst axes <? 0) || (snd axes <? 0) then raise Cv2Error
  else ret (cv2_ellipse img center axes angle startAngle endAngle color thickness).

(** [_draw_roi(img, roi_contour)]; [cv2.drawContours(ref_img, roi_contour, -1,
    (255, 0, 0), 5)] is the [Picture]. *)
Definition _draw_roi (img : ndarray) (roi_contour : list Contour) : M unit :=
  let ref_img := np_copy img in
  let ref_img :=
    if (List.length (nd_shape ref_img) =? 2)%nat then cv2_cvtColor_GRAY2BGR ref_img
    else ref_img in
  let pic := {| canvas := ref_img; drawn := roi_contour |} in
  w <- get ;;
  match debug (params w) with
  | Some mode =>
      if String.eqb mode "print" then
        print_image pic
          (os_path_join (debug_outdir (params w))
             (py_str (device (params w)) ++ "_roi.png")%string)
      else if String.eqb mode "plot" then plot_image pic
      else ret tt
  | None => ret tt
  end.

(** [if params.debug is not None: _draw_roi(img=img, roi_contour=...)] *)
Definition draw_if_debug (img : ndarray) (roi_contour : list Contour) : M unit :=
  w <- get ;;
  when (is_not_None (debug (params w))) (_draw_roi img roi_contour).

Definition from_binary_image (bin_img img : ndarray) : M ROI :=
  incr_device ;;
  when (negb (List.length (np_unique bin_img) =? 2)%nat) (fatal_error not_binary_msg) ;;
  let '(roi_contour, roi_hierarchy) :=
    cv2_findContours (np_copy bin_img) RETR_TREE CHAIN_APPROX_NONE in
  draw_if_debug img roi_contour ;;
  ret (roi_contour, roi_hierarchy).

Definition rectangle (x y h w : Z) (img : ndarray) : M ROI :=
  incr_device ;;
  ' (height, width) <- unpack_shape img ;;
  when ((x <? 0) || (y <? 0) || (x + w >? Z.of_nat width) || (y + h >? Z.of_nat height))
       (fatal_error roi_outside_msg) ;;
  let pt1 := (x, y) in
  let pt2 := (x, y + h - 1) in
  let pt3 := (x + w - 1, y + h - 1) in
  let pt4 := (x + w - 1, y) in
  c <- np_array_int32 [pt1; pt2; pt3; pt4] ;;
  let roi_contour := [c] in
  let roi_hierarchy := [(-1, -1, -1, -1)] in
  draw_if_debug img roi_contour ;;
  ret (roi_contour, roi_hierarchy).

Definition circle (x y r : Z) (img : ndarray) : M ROI :=
  incr_device ;;
  ' (height, width) <- unpack_shape img ;;
  when ((x - r <? 0) || (x + r >? Z.of_nat width) || (y - r <? 0) || (y + r >? Z.of_nat height))
       (fatal_error roi_outside_msg) ;;
  let bin_img := np_zeros height width in
  bin_img <- call_cv2_circle bin_img (x, y) r 255 (-1) ;;
  let '(roi_contour, roi_hierarchy) :=
    cv2_findContours (np_copy bin_img) RETR_TREE CHAIN_APPROX_NONE in
  draw_if_debug img roi_contour ;;
  ret (roi_contour, roi_hierarchy).

Definition ellipse (x y r1 r2 angle : Z) (img : ndarray) : M ROI :=
  incr_device ;;
  ' (height, width) <- unpack_shape img ;;
  let bin_img := np_zeros height width in
  bin_img <- call_cv2_ellipse bin_img (x, y) (r1, r2) angle 0 360 255 (-1) ;;
  match border_sum bin_img with
  | None => raise IndexError
  | Some total =>
      when (total >? 0) (fatal_error roi_outside_msg) ;;
      let '(roi_contour, roi_hierarchy) :=
        cv2_findContours (np_copy bin_img) RETR_TREE CHAIN_APPROX_NONE in
      draw_if_debug img roi_contour ;;
      ret (roi_contour, roi_hierarchy)
  end.

(** [multi] reaches the circle builder through the module-level name
    [circle]; the composer is written over the builder that name denotes
    ([circle_builder]) and [multi] is the composer at [circle]. *)
Section Composer.

Variable circle_builder : Z -> Z -> Z -> ndarray -> M ROI.

(** One pass of the loop body, which is the same in both modes of [multi]:
    build the chip ROI, draw the circle on the shared [bin_img], then extract
    contours from the shared [bin_img] three times. *)
Definition place (img : ndarray) (radius x y : Z) (L : Locals) : M Locals :=
  roi <- circle_builder x y radius img ;;
  bin_img <- call_cv2_circle (l_bin_img L) (x, y) radius 255 (-1) ;;
  let rc := fst (cv2_findContours (np_copy bin_img) RETR_EXTERNAL CHAIN_APPROX_NONE) in
  let rh := snd (cv2_findContours (np_copy bin_img) RETR_EXTERNAL CHAIN_APPROX_NONE) in
  let '(roi_contour1, _) :=
    cv2_findContours (np_copy bin_img) RETR_TREE CHAIN_APPROX_NONE in
  ret {| l_rois := l_rois L ++ [roi];
         l_bin_img := bin_img;
         l_roi_contour := l_roi_contour L ++ [rc];
         l_roi_hierarchy := l_roi_hierarchy L ++ [rh];
         l_roi_contour1 := Some roi_contour1 |}.

(** [for i in range(0, nrows): ... for j in range(0, ncols): ...] *)
Definition grid_loop (img : ndarray) (cx cy radius : Z) (spacing : option (Z * Z))
    (nrows ncols : option Z) (L : Locals) : M Locals :=
  nr <- not_None nrows ;;
  for_each (py_range nr)
    (fun i L =>
       s <- not_None spacing ;;
       let y := cy + i * snd s in
       nc <- not_None ncols ;;
       for_each (py_range nc)
         (fun j L =>
            let x := cx + j * fst s in
            place img radius x y L)
         L)
    L.

(** [for i in range(0, len(coord)): y = coord[i][1]; x = coord[i][0]; ...] *)
Definition list_loop (img : ndarray) (coord : list (Z * Z)) (radius : Z)
    (L : Locals) : M Locals :=
  for_each (py_range (Z.of_nat (List.length coord)))
    (fun i L =>
       match nth_error coord (Z.to_nat i) with
       | None => raise IndexError
       | Some c =>
           let y := snd c in
           let x := fst c in
           place img radius x y L
       end)
    L.

Definition multi_with (img : ndarray) (coord : Coord) (radius : Z)
    (spacing : option (Z * Z)) (nrows ncols : option Z)
    : M (list (list Contour) * list Hierarchy) :=
  incr_device ;;
  w0 <- get ;;
  let debug0 := debug (params w0) in
  modify (set_debug None) ;;
  ' (height, width) <- unpack_shape img ;;
  let L0 := {| l_rois := []; l_bin_img := np_zeros height width;
               l_roi_contour := []; l_roi_hierarchy := [];
               l_roi_contour1 := None |} in
  L <- match coord with
       | CoordTuple cx cy =>
           if is_not_None (py_and nrows ncols)
           then grid_loop img cx cy radius spacing nrows ncols L0
           else (fatal_error multi_mode_msg ;; ret L0)
       | CoordList l =>
           if negb (is_not_None (py_and nrows ncols))
           then list_loop img l radius L0
           else (fatal_error multi_mode_msg ;; ret L0)
       end ;;
  modify (set_debug debug0) ;;
  w1 <- get ;;
  when (is_not_None (debug (params w1)))
       (match l_roi_contour1 L with
        | Some roi_contour1 => _draw_roi img roi_contour1
        | None => raise (UnboundLocalError "roi_contour1")
        end) ;;
  ret (l_roi_contour L, l_roi_hierarchy L).

End Composer.

Definition multi : ndarray -> Coord -> Z -> option (Z * Z) -> option Z -> option Z
    -> M (list (list Contour) * list Hierarchy) :=
  multi_with circle.

End Builders.

(** ** A reference instance of the OpenCV routines

    An executable stand-in used to run the builders on small masks.  It is not
    OpenCV: a filled circle is the set of pixels within the radius of the
    centre, an ellipse is drawn axis-aligned (rotated by a quarter turn when
    [angle mod 180 = 90]), and contour extraction returns, for every
    8-connected component of non-zero pixels, the component's border pixels in
    raster order, with a flat hierarchy.  Holes are not traced, so both
    retrieval modes give the same answer. *)

Module Reference.

Definition point_eqb (p q : Point) : bool :=
  (fst p =? fst q) && (snd p =? snd q).

Definition mem (p : Point) (l : list Point) : bool := existsb (point_eqb p) l.

(** The pixel stored at index [i] of the row-major data of a [w]-wide array. *)
Definition pixel_at (w i : nat) : Point :=
  (Z.of_nat (i mod w), Z.of_nat (i / w)).

(** All pixels of an [h] by [w] array, in raster order. *)
Definition all_pixels (h w : nat) : list Point :=
  flat_map (fun y => map (fun x => (Z.of_nat x, Z.of_nat y)) (seq 0 w)) (seq 0 h).

Definition paint (inside : Point -> bool) (color : Z) (m : ndarray) : ndarray :=
  match nd_shape m with
  | [_; w] =>
      {| nd_shape := nd_shape m;
         nd_data :=
           map (fun iv => if inside (pixel_at w (fst iv)) then color else snd iv)
               (combine (seq 0 (List.length (nd_data m))) (nd_data m)) |}
  | _ => m
  end.

Definition in_disk (cx cy r : Z) (p : Point) : bool :=
  (0 <=? r) && ((fst p - cx) ^ 2 + (snd p - cy) ^ 2 <=? r ^ 2).

Definition in_ellipse (cx cy a b : Z) (p : Point) : bool :=
  (0 <=? a) && (0 <=? b)
  && ((fst p - cx) ^ 2 * b ^ 2 + (snd p - cy) ^ 2 * a ^ 2 <=? a ^ 2 * b ^ 2).

Definition circle (m : ndarray) (center : Z * Z) (radius color thickness : Z) : ndarray :=
  paint (in_disk (fst center) (snd center) radius) color m.

Definition ellipse (m : ndarray) (center axes : Z * Z)
    (angle startAngle endAngle color thickness : Z) : ndarray :=
  if angle mod 180 =? 90
  then paint (in_ellipse (fst center) (snd center) (snd axes) (fst axes)) color m
  else paint (in_ellipse (fst center) (snd center) (fst axes) (snd axes)) color m.

Definition value (m : ndarray) (p : Point) : Z :=
  match nd_shape m with
  | [h; w] =>
      if (0 <=? fst p) && (fst p <? Z.of_nat w) && (0 <=? snd p) && (snd p <? Z.of_nat h)
      then nth (Z.to_nat (snd p) * w + Z.to_nat (fst p)) (nd_data m) 0
      else 0
  | _ => 0
  end.

Definition foreground (m : ndarray) (p : Point) : bool := negb (value m p =? 0).

Definition neighbours4 (p : Point) : list Point :=
  let '(x, y) := p in [(x, y - 1); (x - 1, y); (x + 1, y); (x, y + 1)].

Definition neighbours8 (p : Point) : list Point :=
  let '(x, y) := p in
  [(x - 1, y - 1); (x, y - 1); (x + 1, y - 1);
   (x - 1, y); (x + 1, y);
   (x - 1, y + 1); (x, y + 1); (x + 1, y + 1)].

(** The foreground pixels reachable from the work list. *)
Fixpoint flood (fuel : nat) (m : ndarray) (work seen : list Point) : list Point :=
  match fuel with
  | O => seen
  | S fuel' =>
      match work with
      | [] => seen
      | p :: rest =>
          if foreground m p && negb (mem p seen)
          then flood fuel' m (neighbours8 p ++ rest) (p :: seen)
          else flood fuel' m rest seen
      end
  end.

Definition components (m : ndarray) : list (list Point) :=
  match nd_shape m with
  | [h; w] =>
      fold_left
        (fun comps p =>
           if foreground m p && negb (existsb (mem p) comps)
           then comps ++ [flood (9 * (h * w) + 1) m [p] []]
           else comps)
        (all_pixels h w) []
  | _ => []
  end.

Definition on_border (m : ndarray) (p : Point) : bool :=
  existsb (fun q => negb (foreground m q)) (neighbours4 p).

Definition contour_of (m : ndarray) (comp : list Point) : Contour :=
  match nd_shape m with
  | [h; w] => filter (fun p => mem p comp && on_border m p) (all_pixels h w)
  | _ => []
  end.

Definition flat_hierarchy (n : nat) : Hierarchy :=
  map (fun i => ((if (S i <? n)%nat then Z.of_nat (S i) else -1),
                 Z.of_nat i - 1, -1, -1))
      (seq 0 n).

Definition findContours (m : ndarray) (mode : RetrievalModes)
    (method : ContourApproximationModes) : ROI :=
  let contours := map (contour_of m) (components m) in
  (contours, flat_hierarchy (List.length contours)).

#[export] Instance cv : Cv2 := {|
  cv2_circle := circle;
  cv2_ellipse := ellipse;
  cv2_findContours := findContours
|}.

End Reference.

(** * The vocabulary of the properties *)

(** ** Contexts *)

Definition emit_all (outs : list Output) (w : World) : World :=
  {| params := params w; outputs := outputs w ++ outs |}.

(** [w] after [params.device += 1]. *)
Definition bump (w : World) : World := set_device (device (params w) + 1) w.

(** The context in which the loops of [multi] start: the counter incremented,
    the debug mode switched off. *)
Definition suppressed (W : World) : World := set_debug None (bump W).

(** What [_draw_roi] sends out under the parameters [p]. *)
Definition draw_output (p : Params) (img : ndarray) (roi_contour : list Contour)
    : list Output :=
  let ref_img :=
    if (List.length (nd_shape img) =? 2)%nat then cv2_cvtColor_GRAY2BGR img else img in
  let pic := {| canvas := ref_img; drawn := roi_contour |} in
  match debug p with
  | Some mode =>
      if String.eqb mode "print" then
        [Printed pic (os_path_join (debug_outdir p) (py_str (device p) ++ "_roi.png")%string)]
      else if String.eqb mode "plot" then [Plotted pic]
      else []
  | None => []
  end.

(** The context after a builder has drawn [roi_contour] (if asked to). *)
Definition drew (img : ndarray) (roi_contour : list Contour) (w : World) : World :=
  emit_all (draw_output (params w) img roi_contour) w.

(** The context of the examples: a fresh [params] (counter 0, debug off). *)
Definition W0 : World :=
  {| params := {| device := 0; debug := None; debug_outdir := "." |};
     outputs := [] |}.

(** The same with plotting switched on. *)
Definition Wplot : World := set_debug (Some "plot"%string) W0.

(** ** The bounds checks and the shapes *)

Definition rectangle_outside (x y h w : Z) (height width : nat) : bool :=
  (x <? 0) || (y <? 0) || (x + w >? Z.of_nat width) || (y + h >? Z.of_nat height).

Definition rectangle_vertices (x y h w : Z) : Contour :=
  [(x, y); (x, y + h - 1); (x + w - 1, y + h - 1); (x + w - 1, y)].

Definition vertices_fit (c : Contour) : bool :=
  forallb (fun p => fits_int32 (fst p) && fits_int32 (snd p)) c.

Definition circle_outside (x y r : Z) (height width : nat) : bool :=
  (x - r <? 0) || (x + r >? Z.of_nat width) || (y - r <? 0) || (y + r >? Z.of_nat height).

(** The circle at centre [c] passes the bounds check of the circle builder. *)
Definition inside (radius : Z) (height width : nat) (c : Point) : bool :=
  negb (circle_outside (fst c) (snd c) radius height width).

(** The smallest box with sides parallel to the axes that holds every point of
    the contour: [(xmin, xmax, ymin, ymax)]. *)
Definition bounding_box (c : Contour) : option (Z * Z * Z * Z) :=
  match c with
  | [] => None
  | p :: t =>
      Some (fold_right Z.min (fst p) (map fst t), fold_right Z.max (fst p) (map fst t),
            fold_right Z.min (snd p) (map snd t), fold_right Z.max (snd p) (map snd t))
  end.

(** [p] is a pixel of an image of the given extents: it lies in
    [[0,width) x [0,height)]. *)
Definition in_image (height width : nat) (p : Point) : Prop :=
  0 <= fst p < Z.of_nat width /\ 0 <= snd p < Z.of_nat height.

Definition in_imageb (height width : nat) (p : Point) : bool :=
  (0 <=? fst p) && (fst p <? Z.of_nat width) && (0 <=? snd p) && (snd p <? Z.of_nat height).

Definition roi_in_image (height width : nat) (roi : ROI) : Prop :=
  Forall (Forall (in_image height width)) (fst roi).

(** ** The selection of a mode by [multi] *)

(** What the inputs of [multi] select: the centres to place, a [TypeError]
    (a grid with rows but without spacing or column count), or neither
    mode. *)
Inductive Plan : Type :=
| Centres (cs : list Point)
| NoSubscript
| NoMode.

Definition grid_centres (cx cy : Z) (s : Z * Z) (nr nc : Z) : list Point :=
  flat_map (fun i => map (fun j => (cx + j * fst s, cy + i * snd s)) (py_range nc))
           (py_range nr).

Definition grid_plan (cx cy : Z) (spacing : option (Z * Z)) (nrows ncols : option Z) : Plan :=
  match nrows with
  | None => NoSubscript
  | Some nr =>
      if nr <=? 0 then Centres []
      else
        match spacing, ncols with
        | Some s, Some nc => Centres (grid_centres cx cy s nr nc)
        | _, _ => NoSubscript
        end
  end.

Definition multi_plan (coord : Coord) (spacing : option (Z * Z)) (nrows ncols : option Z)
    : Plan :=
  match coord with
  | CoordTuple cx cy =>
      if is_not_None (py_and nrows ncols) then grid_plan cx cy spacing nrows ncols
      else NoMode
  | CoordList l =>
      if negb (is_not_None (py_and nrows ncols)) then Centres l else NoMode
  end.

(** The circle at centre [c] can be placed: it passes the bounds check of the
    circle builder and [cv2.circle] accepts the radius. *)
Definition placeable (radius : Z) (height width : nat) (c : Point) : bool :=
  inside radius height width c && (0 <=? radius).

(** What the circle builder raises at a centre that cannot be placed: the
    bounds error when the centre fails the bounds check, and otherwise (the
    radius is negative) the error of [cv2.circle]. *)
Definition placement_error (radius : Z) (height width : nat) (c : Point) : Exception :=
  if inside radius height width c then Cv2Error else BoundsError.

(** The error raised at the first of the centres [cs] that cannot be
    placed. *)
Fixpoint first_failure (radius : Z) (height width : nat) (cs : list Point) : Exception :=
  match cs with
  | [] => BoundsError
  | c :: t =>
      if placeable radius height width c then first_failure radius height width t
      else placement_error radius height width c
  end.

(** The number of leading elements of [l] that satisfy [f]. *)
Fixpoint leading {X : Type} (f : X -> bool) (l : list X) : nat :=
  match l with
  | [] => 0
  | x :: t => if f x then S (leading f t) else 0
  end.

(** The number of circle-builder calls a [multi] call makes before it returns
    or raises. *)
Definition circle_calls (img : ndarray) (coord : Coord) (radius : Z)
    (spacing : option (Z * Z)) (nrows ncols : option Z) : nat :=
  match np_shape2 img, multi_plan coord spacing nrows ncols with
  | Some (height, width), Centres cs =>
      if forallb (placeable radius height width) cs then List.length cs
      else S (leading (placeable radius height width) cs)
  | _, _ => 0%nat
  end.

(** ** Masks, extracted contours and the local variables of [multi] *)

Section Vocabulary.

Context {cv : Cv2}.

Definition circle_mask (x y r : Z) (height width : nat) : ndarray :=
  cv2_circle (np_zeros height width) (x, y) r 255 (-1).

(** The mask of [ellipse] after its call of [cv2.ellipse]: the drawing, or the
    zero mask as it was when the routine refused the axes. *)
Definition ellipse_mask (x y r1 r2 angle : Z) (height width : nat) : ndarray :=
  if (r1 <? 0) || (r2 <? 0) then np_zeros height width
  else cv2_ellipse (np_zeros height width) (x, y) (r1, r2) angle 0 360 255 (-1).

Definition tree (m : ndarray) : ROI := cv2_findContours m RETR_TREE CHAIN_APPROX_NONE.
Definition external (m : ndarray) : ROI := cv2_findContours m RETR_EXTERNAL CHAIN_APPROX_NONE.

(** The local variables after one more circle, whose chip ROI is [roi]. *)
Definition placed (radius : Z) (c : Point) (roi : ROI) (L : Locals) : Locals :=
  let bin_img := cv2_circle (l_bin_img L) c radius 255 (-1) in
  {| l_rois := l_rois L ++ [roi];
     l_bin_img := bin_img;
     l_roi_contour := l_roi_contour L ++ [fst (external bin_img)];
     l_roi_hierarchy := l_roi_hierarchy L ++ [snd (external bin_img)];
     l_roi_contour1 := Some (fst (tree bin_img)) |}.

Definition place_at (circle_builder : Z -> Z -> Z -> ndarray -> M ROI)
    (img : ndarray) (radius : Z) (c : Point) : Locals -> M Locals :=
  place circle_builder img radius (fst c) (snd c).

Definition L0 (height width : nat) : Locals :=
  {| l_rois := []; l_bin_img := np_zeros height width;
     l_roi_contour := []; l_roi_hierarchy := []; l_roi_contour1 := None |}.

(** The ROI the circle builder returns for centre [c]. *)
Definition chip (radius : Z) (height width : nat) (c : Point) : ROI :=
  tree (circle_mask (fst c) (snd c) radius height width).

Definition step (radius : Z) (height width : nat) (L : Locals) (c : Point) : Locals :=
  placed radius c (chip radius height width c) L.

(** The shared mask after each of the circles at [cs] has been drawn on [m]. *)
Fixpoint masks (radius : Z) (m : ndarray) (cs : list Point) : list ndarray :=
  match cs with
  | [] => []
  | c :: t =>
      let m' := cv2_circle m c radius 255 (-1) in
      m' :: masks radius m' t
  end.

(** The circle builder behind a guard: [assert params.debug is None] first. *)
Definition circle_asserting_debug_off (x y r : Z) (img : ndarray) : M ROI :=
  fun W =>
    match debug (params W) with
    | None => circle x y r img W
    | Some _ => (Raised AssertionError, W)
    end.

End Vocabulary.

(** ** Builder calls *)

(** A call of one of the five builders. *)
Inductive Call : Type :=
| FromBinaryImage (bin_img img : ndarray)
| Rectangle (x y h w : Z) (img : ndarray)
| Circle (x y r : Z) (img : ndarray)
| Ellipse (x y r1 r2 angle : Z) (img : ndarray)
| Multi (img : ndarray) (coord : Coord) (radius : Z) (spacing : option (Z * Z))
    (nrows ncols : option Z).

(** Whether a computation returned, and the context it left. *)
Definition outcome {A : Type} (r : Result A * World) : Result unit * World :=
  (match fst r with Ok _ => Ok tt | Raised e => Raised e end, snd r).

Definition run {cv : Cv2} (c : Call) (W : World) : Result unit * World :=
  match c with
  | FromBinaryImage bin_img img => outcome (from_binary_image bin_img img W)
  | Rectangle x y h w img => outcome (rectangle x y h w img W)
  | Circle x y r img => outcome (circle x y r img W)
  | Ellipse x y r1 r2 angle img => outcome (ellipse x y r1 r2 angle img W)
  | Multi img coord radius spacing nrows ncols =>
      outcome (multi img coord radius spacing nrows ncols W)
  end.

Definition is_multi (c : Call) : bool :=
  match c with Multi _ _ _ _ _ _ => true | _ => false end.

(** A number of rows or columns as [range] reads it: nothing below 0. *)
Definition count (n : option Z) : Z :=
  match n with Some k => Z.max 0 k | None => 0 end.

(** The circles a [multi] call is asked to place: [nrows * ncols] in grid mode,
    the length of the coordinate list in list mode. *)
Definition circles_placed (c : Call) : Z :=
  match c with
  | Multi _ (CoordTuple _ _) _ _ nrows ncols => count nrows * count ncols
  | Multi _ (CoordList l) _ _ _ _ => Z.of_nat (List.length l)
  | _ => 0
  end.

(** The circle-builder calls made inside a builder call: none, except in
    [multi]. *)
Definition inner_circle_calls (c : Call) : nat :=
  match c with
  | Multi img coord radius spacing nrows ncols =>
      circle_calls img coord radius spacing nrows ncols
  | _ => 0%nat
  end.

(** ** Values and contracts *)




(** The contracts of the OpenCV routines that C5 rests on: drawing on a mask
    keeps its shape, and the points of an extracted contour are pixels of the
    mask they were extracted from. *)
Definition drawing_keeps_shape (cv : Cv2) : Prop :=
  (forall m c r color thickness,
      nd_shape (cv2_circle m c r color thickness) = nd_shape m)
  /\ (forall m c axes angle s e color thickness,
      nd_shape (cv2_ellipse m c axes angle s e color thickness) = nd_shape m).

Definition contours_in_mask (cv : Cv2) : Prop :=
  forall m mode method h w,
    nd_shape m = [h; w] ->
    Forall (Forall (in_image h w)) (fst (cv2_findContours m mode method)).

(** ** Debug files, pixels and runs of calls *)

(** The file [_draw_roi] prints to under the parameters [p]:
    [os.path.join(params.debug_outdir, str(params.device) + "_roi.png")]. *)
Definition roi_file (outdir : string) (d : Z) : string :=
  os_path_join outdir (py_str d ++ "_roi.png")%string.

Definition roi_path (p : Params) : string := roi_file (debug_outdir p) (device p).

(** The element at column [x] of row [y] of an array of width [w]. *)
Definition pixel (a : ndarray) (w x y : nat) : Z := nth (y * w + x) (nd_data a) 0.

(** [(x, y)] lies in the first or last row or column of an [h] by [w] array. *)
Definition on_edge (h w x y : nat) : Prop :=
  x = 0%nat \/ x = (w - 1)%nat \/ y = 0%nat \/ y = (h - 1)%nat.

(** An [h] by [w] array of [uint8] values. *)
Definition uint8_mask (h w : nat) (m : ndarray) : Prop :=
  nd_shape m = [h; w]
  /\ List.length (nd_data m) = (h * w)%nat
  /\ Forall (fun v => 0 <= v <= 255) (nd_data m).

(** [p] is a pixel of the image that is on none of its four edges. *)
Definition clear_of_edges (height width : nat) (p : Point) : Prop :=
  0 < fst p < Z.of_nat width - 1 /\ 0 < snd p < Z.of_nat height - 1.

(** A contract of contour extraction: every point of an extracted contour is
    a non-zero pixel of the mask. *)
Definition contours_on_foreground (cv : Cv2) : Prop :=
  forall m mode method h w,
    nd_shape m = [h; w] ->
    Forall (Forall (fun p =>
                      exists x y, p = (Z.of_nat x, Z.of_nat y)
                                  /\ (x < w)%nat /\ (y < h)%nat /\ pixel m w x y <> 0))
           (fst (cv2_findContours m mode method)).

(** The context after the calls [cs], made one after the other whatever their
    outcome (a caller that catches the exceptions). *)
Fixpoint after_calls {cv : Cv2} (cs : list Call) (W : World) : World :=
  match cs with
  | [] => W
  | c :: t => after_calls t (snd (run c W))
  end.

(** The paths printed to, in order. *)
Definition printed_paths (outs : list Output) : list string :=
  flat_map (fun o => match o with Printed _ path => [path] | Plotted _ => [] end) outs.

(** The shared mask of [multi] after the circles at [cs] have been drawn on
    [m]. *)
Definition drawn_on {cv : Cv2} (radius : Z) (m : ndarray) (cs : list Point) : ndarray :=
  fold_left (fun m c => cv2_circle m c radius 255 (-1)) cs m.

(** The files printed so far are distinct and carry counter values that are
    not ahead of the counter. *)
Definition files_in_order (outdir : string) (W : World) : Prop :=
  NoDup (printed_paths (outputs W))
  /\ Forall (fun path => exists d, d <= device (params W) /\ path = roi_file outdir d)
            (printed_paths (outputs W)).

(** The reference image as [_draw_roi] draws on it: a grey image is turned
    into three channels first. *)
Definition as_colour (img : ndarray) : ndarray :=
  if (List.length (nd_shape img) =? 2)%nat then cv2_cvtColor_GRAY2BGR img else img.

Definition picture_of (o : Output) : Picture :=
  match o with Printed pic _ => pic | Plotted pic => pic end.

(** Between [W] and [W'] one picture went out: the contours [cs] drawn on the
    reference image [img]. *)
Definition shows (img : ndarray) (cs : list Contour) (W W' : World) : Prop :=
  exists o, outputs W' = outputs W ++ [o]
            /\ picture_of o = {| canvas := as_colour img; drawn := cs |}.

(** The debug modes in which [_draw_roi] sends a picture out. *)
Definition drawing_mode (m : option string) : Prop :=
  m = Some "print"%string \/ m = Some "plot"%string.

(** The circle-builder calls made inside the calls [cs]. *)
Definition inner_calls (cs : list Call) : nat :=
  fold_right (fun c n => (inner_circle_calls c + n)%nat) 0%nat cs.

(** ** Unfolding the computations *)

Ltac py_unfold :=
  cbv beta iota zeta delta
    [Py.bind Py.ret Py.raise Py.get Py.modify Py.when
     fatal_error incr_device print_image plot_image unpack_shape not_None].

(** * Properties *)

(** ** The context under the elementary updates *)

Lemma emit_all_nil w : emit_all [] w = w.
Proof. destruct w; unfold emit_all; simpl. now rewrite app_nil_r. Qed.

Lemma device_bump w : device (params (bump w)) = device (params w) + 1.
Proof. reflexivity. Qed.

Lemma debug_bump w : debug (params (bump w)) = debug (params w).
Proof. reflexivity. Qed.

Lemma outputs_bump w : outputs (bump w) = outputs w.
Proof. reflexivity. Qed.

Lemma draw_output_off p img c : debug p = None -> draw_output p img c = [].
Proof. unfold draw_output. now intros ->. Qed.

Lemma draw_output_length p img c : (List.length (draw_output p img c) <= 1)%nat.
Proof.
  unfold draw_output. destruct (debug p) as [mode|]; simpl; [|lia].
  destruct (String.eqb mode "print"); simpl; [lia|].
  destruct (String.eqb mode "plot"); simpl; lia.
Qed.

Lemma _draw_roi_run img c w :
  _draw_roi img c w = (Ok tt, emit_all (draw_output (params w) img c) w).
Proof.
  unfold _draw_roi, draw_output, np_copy. py_unfold.
  destruct (debug (params w)) as [mode|]; simpl.
  - destruct (String.eqb mode "print"); [reflexivity|].
    destruct (String.eqb mode "plot"); [reflexivity|].
    now rewrite emit_all_nil.
  - now rewrite emit_all_nil.
Qed.

Lemma draw_if_debug_run img c w :
  draw_if_debug img c w = (Ok tt, emit_all (draw_output (params w) img c) w).
Proof.
  unfold draw_if_debug. py_unfold.
  destruct (debug (params w)) as [mode|] eqn:E; simpl.
  - apply _draw_roi_run.
  - rewrite draw_output_off by assumption. now rewrite emit_all_nil.
Qed.

(** ** Each builder as one case analysis *)

Lemma device_drew img c w : device (params (drew img c w)) = device (params w).
Proof. reflexivity. Qed.

Lemma debug_drew img c w : debug (params (drew img c w)) = debug (params w).
Proof. reflexivity. Qed.

Lemma drew_off img c w : debug (params w) = None -> drew img c w = w.
Proof.
  intros H. unfold drew. rewrite draw_output_off by assumption. apply emit_all_nil.
Qed.

Lemma rectangle_run x y h w img W :
  rectangle x y h w img W =
  match np_shape2 img with
  | None => (Raised ValueError, bump W)
  | Some (height, width) =>
      if rectangle_outside x y h w height width then (Raised BoundsError, bump W)
      else if vertices_fit (rectangle_vertices x y h w) then
        (Ok ([rectangle_vertices x y h w], [(-1, -1, -1, -1)]),
         drew img [rectangle_vertices x y h w] (bump W))
      else (Raised OverflowError, bump W)
  end.
Proof.
  unfold rectangle, np_array_int32. py_unfold. fold (bump W).
  destruct (np_shape2 img) as [[height width]|]; [|reflexivity].
  fold (rectangle_outside x y h w height width).
  destruct (rectangle_outside x y h w height width); [reflexivity|].
  fold (rectangle_vertices x y h w). fold (vertices_fit (rectangle_vertices x y h w)).
  destruct (vertices_fit (rectangle_vertices x y h w)); [|reflexivity].
  now rewrite draw_if_debug_run.
Qed.

Section BuilderRuns.

Context {cv : Cv2}.

Lemma from_binary_image_run bin_img img W :
  from_binary_image bin_img img W =
  if (List.length (np_unique bin_img) =? 2)%nat then
    (Ok (tree bin_img), drew img (fst (tree bin_img)) (bump W))
  else (Raised InvalidInputError, bump W).
Proof.
  unfold from_binary_image, tree, np_copy. py_unfold. fold (bump W).
  destruct (List.length (np_unique bin_img) =? 2)%nat; simpl; [|reflexivity].
  destruct (cv2_findContours bin_img RETR_TREE CHAIN_APPROX_NONE) as [c hi]; simpl.
  now rewrite draw_if_debug_run.
Qed.

Lemma circle_run x y r img W :
  circle x y r img W =
  match np_shape2 img with
  | None => (Raised ValueError, bump W)
  | Some (height, width) =>
      if circle_outside x y r height width then (Raised BoundsError, bump W)
      else if r <? 0 then (Raised Cv2Error, bump W)
      else
        (Ok (tree (circle_mask x y r height width)),
         drew img (fst (tree (circle_mask x y r height width))) (bump W))
  end.
Proof.
  unfold circle, call_cv2_circle, tree, circle_mask, np_copy. py_unfold. fold (bump W).
  destruct (np_shape2 img) as [[height width]|]; [|reflexivity].
  fold (circle_outside x y r height width).
  destruct (circle_outside x y r height width); [reflexivity|]. simpl.
  destruct (r <? 0); [reflexivity|].
  destruct (cv2_findContours _ RETR_TREE CHAIN_APPROX_NONE) as [c hi]; simpl.
  now rewrite draw_if_debug_run.
Qed.

Lemma ellipse_run x y r1 r2 angle img W :
  ellipse x y r1 r2 angle img W =
  match np_shape2 img with
  | None => (Raised ValueError, bump W)
  | Some (height, width) =>
      if (r1 <? 0) || (r2 <? 0) then (Raised Cv2Error, bump W)
      else
        match border_sum (ellipse_mask x y r1 r2 angle height width) with
        | None => (Raised IndexError, bump W)
        | Some total =>
            if total >? 0 then (Raised BoundsError, bump W)
            else
              (Ok (tree (ellipse_mask x y r1 r2 angle height width)),
               drew img (fst (tree (ellipse_mask x y r1 r2 angle height width))) (bump W))
        end
  end.
Proof.
  unfold ellipse, call_cv2_ellipse, tree, ellipse_mask, np_copy. py_unfold. fold (bump W).
  destruct (np_shape2 img) as [[height width]|]; [|reflexivity].
  cbn [fst snd]. destruct ((r1 <? 0) || (r2 <? 0)); [reflexivity|].
  destruct (border_sum _) as [total|]; [|reflexivity].
  destruct (total >? 0); [reflexivity|]. simpl.
  destruct (cv2_findContours _ RETR_TREE CHAIN_APPROX_NONE) as [c hi]; simpl.
  now rewrite draw_if_debug_run.
Qed.

End BuilderRuns.

(** ** Loops *)

Section ForEach.

Context {X A : Type}.

Lemma for_each_app (l1 l2 : list X) (body : X -> A -> M A) acc w :
  for_each (l1 ++ l2) body acc w
  = Py.bind (for_each l1 body acc) (for_each l2 body) w.
Proof.
  revert acc w. induction l1 as [|x l1 IH]; intros acc w; simpl.
  - reflexivity.
  - unfold Py.bind. destruct (body x acc w) as [[a|e] w']; [|reflexivity].
    rewrite IH. reflexivity.
Qed.

(** Two bodies that agree on the contexts satisfying an invariant of the first
    give the same loop. *)
Lemma for_each_ext_inv (P : World -> Prop) (l : list X) (b1 b2 : X -> A -> M A) :
  (forall x a w, P w -> b1 x a w = b2 x a w) ->
  (forall x a w, P w -> P (snd (b1 x a w))) ->
  forall acc w, P w -> for_each l b1 acc w = for_each l b2 acc w.
Proof.
  intros Heq Hinv. induction l as [|x l IH]; intros acc w Hw; simpl; [reflexivity|].
  unfold Py.bind. rewrite <- (Heq x acc w Hw).
  specialize (Hinv x acc w Hw).
  destruct (b1 x acc w) as [[a|e] w']; [now apply IH|reflexivity].
Qed.

Lemma for_each_ext (l : list X) (b1 b2 : X -> A -> M A) :
  (forall x a w, b1 x a w = b2 x a w) ->
  forall acc w, for_each l b1 acc w = for_each l b2 acc w.
Proof.
  intros Heq acc w.
  apply (for_each_ext_inv (fun _ => True)); auto.
Qed.

Lemma for_each_inv (P : World -> Prop) (l : list X) (body : X -> A -> M A) :
  (forall x a w, P w -> P (snd (body x a w))) ->
  forall acc w, P w -> P (snd (for_each l body acc w)).
Proof.
  intros Hinv. induction l as [|x l IH]; intros acc w Hw; simpl; [exact Hw|].
  unfold Py.bind. specialize (Hinv x acc w Hw).
  destruct (body x acc w) as [[a|e] w']; [now apply IH|exact Hinv].
Qed.

End ForEach.

Lemma for_each_map {X Y A : Type} (g : X -> Y) (l : list X) (body : Y -> A -> M A) acc w :
  for_each (map g l) body acc w = for_each l (fun x => body (g x)) acc w.
Proof.
  revert acc w. induction l as [|x l IH]; intros acc w; simpl; [reflexivity|].
  unfold Py.bind. destruct (body (g x) acc w) as [[a|e] w']; [apply IH|reflexivity].
Qed.

Lemma for_each_flat_map {X Y A : Type} (f : X -> list Y) (l : list X)
    (body : Y -> A -> M A) acc w :
  for_each (flat_map f l) body acc w
  = for_each l (fun x a => for_each (f x) body a) acc w.
Proof.
  revert acc w. induction l as [|x l IH]; intros acc w; simpl; [reflexivity|].
  rewrite for_each_app. unfold Py.bind.
  destruct (for_each (f x) body acc w) as [[a|e] w']; [apply IH|reflexivity].
Qed.

(** Walking a list by index, as [for i in range(0, len(l)): ... l[i] ...]
    does, visits its elements in order. *)
Lemma for_each_index {C A : Type} (g : C -> A -> M A) (l2 l1 : list C) acc w :
  for_each (seq (List.length l1) (List.length l2))
    (fun i a =>
       match nth_error (l1 ++ l2) i with
       | None => Py.raise IndexError
       | Some c => g c a
       end) acc w
  = for_each l2 g acc w.
Proof.
  revert l1 acc w. induction l2 as [|c l2 IH]; intros l1 acc w; simpl; [reflexivity|].
  unfold Py.bind.
  rewrite nth_error_app2 by lia. rewrite Nat.sub_diag. simpl.
  destruct (g c acc w) as [[a|e] w']; [|reflexivity].
  specialize (IH (l1 ++ [c]) a w').
  rewrite <- app_assoc in IH. simpl in IH.
  rewrite length_app in IH. simpl in IH.
  rewrite Nat.add_1_r in IH. exact IH.
Qed.

Lemma py_range_of_nat n : py_range (Z.of_nat n) = map Z.of_nat (seq 0 n).
Proof. unfold py_range. now rewrite Nat2Z.id. Qed.

Lemma py_range_nonpos n : n <= 0 -> py_range n = [].
Proof.
  intros H. unfold py_range.
  replace (Z.to_nat n) with 0%nat by lia. reflexivity.
Qed.

Lemma py_range_pos n : 0 < n -> exists t, py_range n = 0 :: t.
Proof.
  intros H. unfold py_range.
  destruct (Z.to_nat n) as [|k] eqn:E; [lia|].
  simpl. eauto.
Qed.

Lemma length_py_range n : List.length (py_range n) = Z.to_nat n.
Proof. unfold py_range. now rewrite length_map, length_seq. Qed.

(** ** The composer as a loop over a list of centres *)

Lemma grid_plan_mode cx cy spacing nrows ncols :
  grid_plan cx cy spacing nrows ncols <> NoMode.
Proof.
  unfold grid_plan. destruct nrows as [nr|]; [|discriminate].
  destruct (nr <=? 0); [discriminate|].
  destruct spacing, ncols; discriminate.
Qed.

Section ComposerRuns.

Context {cv : Cv2}.
Variable circle_builder : Z -> Z -> Z -> ndarray -> M ROI.

Lemma place_run img radius x y L W :
  place circle_builder img radius x y L W =
  match circle_builder x y radius img W with
  | (Ok roi, W') =>
      if radius <? 0 then (Raised Cv2Error, W')
      else (Ok (placed radius (x, y) roi L), W')
  | (Raised e, W') => (Raised e, W')
  end.
Proof.
  unfold place, call_cv2_circle, placed, external, tree, np_copy. py_unfold.
  destruct (circle_builder x y radius img W) as [[roi|e] W']; [|reflexivity].
  destruct (radius <? 0); [reflexivity|].
  now destruct (cv2_findContours _ RETR_TREE CHAIN_APPROX_NONE).
Qed.

Lemma grid_loop_run img cx cy radius spacing nrows ncols L W :
  grid_loop circle_builder img cx cy radius spacing nrows ncols L W =
  match grid_plan cx cy spacing nrows ncols with
  | Centres cs => for_each cs (place_at circle_builder img radius) L W
  | _ => (Raised TypeError, W)
  end.
Proof.
  unfold grid_loop, grid_plan.
  destruct nrows as [nr|]; [|reflexivity].
  unfold not_None at 1. unfold Py.bind at 1, Py.ret at 1.
  destruct (Z.leb_spec nr 0) as [Hnr|Hnr].
  - now rewrite py_range_nonpos.
  - destruct spacing as [s|].
    + destruct ncols as [nc|].
      * unfold grid_centres. rewrite for_each_flat_map.
        apply for_each_ext. intros i a w. py_unfold.
        now rewrite for_each_map.
      * destruct (py_range_pos nr Hnr) as [t ->]. reflexivity.
    + destruct (py_range_pos nr Hnr) as [t ->].
      destruct ncols; reflexivity.
Qed.

Lemma list_loop_run img l radius L W :
  list_loop circle_builder img l radius L W
  = for_each l (place_at circle_builder img radius) L W.
Proof.
  unfold list_loop. rewrite py_range_of_nat, for_each_map.
  rewrite <- (for_each_index (place_at circle_builder img radius) l [] L W).
  simpl.
  apply for_each_ext. intros i a w. rewrite Nat2Z.id.
  now destruct (nth_error l i).
Qed.

Lemma multi_with_run img coord radius spacing nrows ncols W :
  multi_with circle_builder img coord radius spacing nrows ncols W =
  match np_shape2 img with
  | None => (Raised ValueError, suppressed W)
  | Some (height, width) =>
      match multi_plan coord spacing nrows ncols with
      | NoMode => (Raised ConfigurationError, suppressed W)
      | NoSubscript => (Raised TypeError, suppressed W)
      | Centres cs =>
          match for_each cs (place_at circle_builder img radius) (L0 height width)
                  (suppressed W) with
          | (Raised e, W2) => (Raised e, W2)
          | (Ok L, W2) =>
              let W3 := set_debug (debug (params W)) W2 in
              match debug (params W), l_roi_contour1 L with
              | None, _ => (Ok (l_roi_contour L, l_roi_hierarchy L), W3)
              | Some _, Some roi_contour1 =>
                  (Ok (l_roi_contour L, l_roi_hierarchy L), drew img roi_contour1 W3)
              | Some _, None => (Raised (UnboundLocalError "roi_contour1"), W3)
              end
          end
      end
  end.
Proof.
  unfold multi_with, multi_plan.
  cbv beta iota zeta delta
    [Py.bind Py.ret Py.raise Py.get Py.modify Py.when fatal_error incr_device unpack_shape].
  fold (bump W). fold (suppressed W).
  destruct (np_shape2 img) as [[height width]|]; [|reflexivity].
  fold (L0 height width).
  assert (Hfin : forall L W2,
    (let (r, w') :=
       (if is_not_None (debug (params (set_debug (debug (params (bump W))) W2)))
        then match l_roi_contour1 L with
             | Some roi_contour1 => _draw_roi img roi_contour1
             | None => fun w => (Raised (UnboundLocalError "roi_contour1"), w)
             end
        else fun w => (Ok tt, w)) (set_debug (debug (params (bump W))) W2) in
     match r with
     | Ok _ => (Ok (l_roi_contour L, l_roi_hierarchy L), w')
     | Raised e => (Raised e, w')
     end) =
    match debug (params W), l_roi_contour1 L with
    | None, _ => (Ok (l_roi_contour L, l_roi_hierarchy L), set_debug (debug (params W)) W2)
    | Some _, Some roi_contour1 =>
        (Ok (l_roi_contour L, l_roi_hierarchy L),
         drew img roi_contour1 (set_debug (debug (params W)) W2))
    | Some _, None =>
        (Raised (UnboundLocalError "roi_contour1"), set_debug (debug (params W)) W2)
    end).
  { intros L W2. rewrite debug_bump. simpl.
    destruct (debug (params W)) as [mode|]; simpl; [|reflexivity].
    destruct (l_roi_contour1 L) as [c|]; [|reflexivity].
    now rewrite _draw_roi_run. }
  destruct coord as [cx cy|l].
  - destruct (is_not_None (py_and nrows ncols)); [|reflexivity].
    rewrite grid_loop_run.
    pose proof (grid_plan_mode cx cy spacing nrows ncols) as Hmode.
    destruct (grid_plan cx cy spacing nrows ncols) as [cs| |];
      [|reflexivity|contradiction].
    destruct (for_each cs _ _ _) as [[L|e] W2]; [apply Hfin|reflexivity].
  - destruct (is_not_None (py_and nrows ncols)); unfold negb; [reflexivity|].
    rewrite list_loop_run.
    destruct (for_each l _ _ _) as [[L|e] W2]; [apply Hfin|reflexivity].
Qed.

End ComposerRuns.

(** ** The composer over the circle builder *)

Lemma iter_bump_succ n W : Nat.iter (S n) bump W = Nat.iter n bump (bump W).
Proof. induction n as [|n IH]; [reflexivity|]. simpl in *. now rewrite IH. Qed.

Lemma device_iter_bump n W :
  device (params (Nat.iter n bump W)) = device (params W) + Z.of_nat n.
Proof.
  induction n as [|n IH]; [simpl; lia|].
  change (Nat.iter (S n) bump W) with (bump (Nat.iter n bump W)).
  rewrite device_bump, IH. lia.
Qed.

Lemma debug_iter_bump n W : debug (params (Nat.iter n bump W)) = debug (params W).
Proof.
  induction n as [|n IH]; [reflexivity|].
  change (Nat.iter (S n) bump W) with (bump (Nat.iter n bump W)).
  now rewrite debug_bump.
Qed.

Lemma outputs_iter_bump n W : outputs (Nat.iter n bump W) = outputs W.
Proof.
  induction n as [|n IH]; [reflexivity|].
  change (Nat.iter (S n) bump W) with (bump (Nat.iter n bump W)).
  now rewrite outputs_bump.
Qed.

Section MultiRuns.

Context {cv : Cv2}.

Variables (img : ndarray) (radius : Z) (height width : nat).
Hypothesis Hshape : np_shape2 img = Some (height, width).

Lemma length_masks m cs : List.length (masks radius m cs) = List.length cs.
Proof. revert m. induction cs as [|c t IH]; intros m; simpl; [reflexivity|]. now rewrite IH. Qed.

Lemma steps_roi_contour cs L :
  l_roi_contour (fold_left (step radius height width) cs L)
  = l_roi_contour L ++ map (fun m => fst (external m)) (masks radius (l_bin_img L) cs).
Proof.
  revert L. induction cs as [|c t IH]; intros L; simpl.
  - now rewrite app_nil_r.
  - rewrite IH. simpl. now rewrite <- app_assoc.
Qed.

Lemma steps_roi_hierarchy cs L :
  l_roi_hierarchy (fold_left (step radius height width) cs L)
  = l_roi_hierarchy L ++ map (fun m => snd (external m)) (masks radius (l_bin_img L) cs).
Proof.
  revert L. induction cs as [|c t IH]; intros L; simpl.
  - now rewrite app_nil_r.
  - rewrite IH. simpl. now rewrite <- app_assoc.
Qed.

Lemma steps_roi_contour1 cs L :
  l_roi_contour1 (fold_left (step radius height width) cs L)
  = match cs with
    | [] => l_roi_contour1 L
    | _ :: _ => Some (fst (tree (l_bin_img (fold_left (step radius height width) cs L))))
    end.
Proof.
  revert L. induction cs as [|c t IH]; intros L; [reflexivity|].
  simpl. rewrite IH. destruct t; reflexivity.
Qed.

Lemma circle_debug x y r im W :
  debug (params (snd (circle x y r im W))) = debug (params W).
Proof.
  rewrite circle_run. destruct (np_shape2 im) as [[h w]|]; [|reflexivity].
  destruct (circle_outside x y r h w); [reflexivity|].
  destruct (r <? 0); reflexivity.
Qed.

Lemma place_at_circle c L W :
  debug (params W) = None ->
  place_at circle img radius c L W =
  if placeable radius height width c
  then (Ok (step radius height width L c), bump W)
  else (Raised (placement_error radius height width c), bump W).
Proof.
  intros Hoff. unfold place_at. rewrite place_run, circle_run, Hshape.
  unfold placeable, placement_error, inside. destruct c as [x y]; simpl.
  destruct (circle_outside x y radius height width); simpl; [reflexivity|].
  rewrite Z.leb_antisym. destruct (radius <? 0); simpl; [reflexivity|].
  now rewrite drew_off.
Qed.

Lemma places_run cs L W :
  debug (params W) = None ->
  for_each cs (place_at circle img radius) L W =
  if forallb (placeable radius height width) cs
  then (Ok (fold_left (step radius height width) cs L), Nat.iter (List.length cs) bump W)
  else (Raised (first_failure radius height width cs),
        Nat.iter (S (leading (placeable radius height width) cs)) bump W).
Proof.
  revert L W. induction cs as [|c t IH]; intros L W Hoff; [reflexivity|].
  cbn [for_each forallb leading List.length fold_left first_failure]. unfold Py.bind.
  rewrite place_at_circle by assumption.
  destruct (placeable radius height width c); cbn [andb]; [|reflexivity].
  rewrite IH by (now rewrite debug_bump).
  rewrite <- !iter_bump_succ. reflexivity.
Qed.

(** [multi], laid out by cases. *)
Lemma multi_run coord spacing nrows ncols W :
  multi img coord radius spacing nrows ncols W =
  match multi_plan coord spacing nrows ncols with
  | NoMode => (Raised ConfigurationError, suppressed W)
  | NoSubscript => (Raised TypeError, suppressed W)
  | Centres cs =>
      if forallb (placeable radius height width) cs then
        let L := fold_left (step radius height width) cs (L0 height width) in
        let W3 := set_debug (debug (params W))
                    (Nat.iter (List.length cs) bump (suppressed W)) in
        match debug (params W), l_roi_contour1 L with
        | None, _ => (Ok (l_roi_contour L, l_roi_hierarchy L), W3)
        | Some _, Some roi_contour1 =>
            (Ok (l_roi_contour L, l_roi_hierarchy L), drew img roi_contour1 W3)
        | Some _, None => (Raised (UnboundLocalError "roi_contour1"), W3)
        end
      else
        (Raised (first_failure radius height width cs),
         Nat.iter (S (leading (placeable radius height width) cs)) bump (suppressed W))
  end.
Proof.
  unfold multi. rewrite multi_with_run, Hshape.
  destruct (multi_plan coord spacing nrows ncols) as [cs| |]; try reflexivity.
  rewrite places_run by reflexivity.
  destruct (forallb (placeable radius height width) cs); reflexivity.
Qed.

End MultiRuns.

(** * The claims *)

Lemma in_imageb_spec height width p :
  in_imageb height width p = true <-> in_image height width p.
Proof.
  unfold in_imageb, in_image. rewrite !andb_true_iff, !Z.leb_le, !Z.ltb_lt. tauto.
Qed.

(** ** C2: the rectangle builder *)

Lemma rectangle_outside_spec x y h w height width :
  rectangle_outside x y h w height width = true
  <-> (x < 0 \/ y < 0 \/ x + w > Z.of_nat width \/ y + h > Z.of_nat height).
Proof.
  unfold rectangle_outside.
  rewrite !orb_true_iff, !Z.ltb_lt, !Z.gtb_gt. tauto.
Qed.

(** C2, as amended.  On an image of extents [width] x [height],
    [rectangle x y h w img] fails with a bounds error exactly when [x < 0],
    [y < 0], [x + w > width] or [y + h > height].  Otherwise, provided the
    vertex coordinates fit the 32-bit element type of the contour array, it
    returns exactly one contour with the vertices [(x,y)], [(x,y+h-1)],
    [(x+w-1,y+h-1)], [(x+w-1,y)] in that order and the single hierarchy entry
    [(-1,-1,-1,-1)]; and when [w >= 1] and [h >= 1] the bounding box of that
    contour is [[x, x+w-1] x [y, y+h-1]]. *)
Theorem rectangle_contract x y h w img height width W :
  np_shape2 img = Some (height, width) ->
  (fst (rectangle x y h w img W) = Raised BoundsError
   <-> (x < 0 \/ y < 0 \/ x + w > Z.of_nat width \/ y + h > Z.of_nat height))
  /\ (~ (x < 0 \/ y < 0 \/ x + w > Z.of_nat width \/ y + h > Z.of_nat height) ->
      vertices_fit (rectangle_vertices x y h w) = true ->
      fst (rectangle x y h w img W)
      = Ok ([[(x, y); (x, y + h - 1); (x + w - 1, y + h - 1); (x + w - 1, y)]],
            [(-1, -1, -1, -1)]))
  /\ (1 <= w -> 1 <= h ->
      bounding_box [(x, y); (x, y + h - 1); (x + w - 1, y + h - 1); (x + w - 1, y)]
      = Some (x, x + w - 1, y, y + h - 1)).
Proof.
  intros Hshape. rewrite rectangle_run, Hshape.
  pose proof (rectangle_outside_spec x y h w height width) as Hout.
  repeat split.
  - destruct (rectangle_outside x y h w height width).
    + intros _. now apply Hout.
    + destruct (vertices_fit _); discriminate.
  - intros Hcond. apply Hout in Hcond. now rewrite Hcond.
  - destruct (rectangle_outside x y h w height width).
    + intros Hn. exfalso. apply Hn. now apply Hout.
    + intros _ Hfit. now rewrite Hfit.
  - intros Hw Hh. unfold bounding_box. cbn [map fold_right fst snd].
    apply f_equal.
    apply (f_equal2 pair); [apply (f_equal2 pair); [apply (f_equal2 pair)|]|]; lia.
Qed.

Lemma rectangle_contract_witness :
  fst (rectangle 1 1 2 3 (np_zeros 5 6) W0)
  = Ok ([[(1, 1); (1, 2); (3, 2); (3, 1)]], [(-1, -1, -1, -1)])
  /\ bounding_box [(1, 1); (1, 2); (3, 2); (3, 1)] = Some (1, 3, 1, 2).
Proof.
  pose proof (rectangle_contract 1 1 2 3 (np_zeros 5 6) 5 6 W0 eq_refl) as [_ [Hret Hbox]].
  split.
  - apply Hret; [simpl; lia | reflexivity].
  - apply Hbox; lia.
Defined.

(** C2 as stated fails on a rectangle of no height and no width that passes
    the bounds check: the contour returned for [rectangle(0, 0, 0, 0)] has the
    bounding box [[-1,0] x [-1,0]], not [[x, x+w-1] x [y, y+h-1]], which would
    be [[0,-1] x [0,-1]].  It also fails where a vertex does not fit the
    [int32] contour array: [rectangle(0, 0, 1, -2^31)] passes the bounds check
    and does not return the contour through [(x+w-1, y)]. *)
Lemma rectangle_contract_counterexample :
  fst (rectangle 0 0 0 0 (np_zeros 10 10) W0)
  = Ok ([[(0, 0); (0, -1); (-1, -1); (-1, 0)]], [(-1, -1, -1, -1)])
  /\ bounding_box [(0, 0); (0, -1); (-1, -1); (-1, 0)] = Some (-1, 0, -1, 0)
  /\ Some (-1, 0, -1, 0) <> Some (0, 0 + 0 - 1, 0, 0 + 0 - 1)
  /\ rectangle_outside 0 0 1 (- 2 ^ 31) 10 10 = false
  /\ fst (rectangle 0 0 1 (- 2 ^ 31) (np_zeros 10 10) W0)
     <> Ok ([rectangle_vertices 0 0 1 (- 2 ^ 31)], [(-1, -1, -1, -1)]).
Proof.
  repeat split; try reflexivity; discriminate.
Qed.

(** ** C3: the bounds check of the circle builder *)

Lemma circle_outside_spec x y r height width :
  circle_outside x y r height width = true
  <-> (x - r < 0 \/ x + r > Z.of_nat width \/ y - r < 0 \/ y + r > Z.of_nat height).
Proof.
  unfold circle_outside.
  rewrite !orb_true_iff, !Z.ltb_lt, !Z.gtb_gt. tauto.
Qed.

(** What the code checks: the circle builder fails with a bounds error exactly
    when [x - r < 0], [x + r > width], [y - r < 0] or [y + r > height];
    otherwise it returns an ROI when the radius is not negative, and fails in
    [cv2.circle] when it is. *)
Lemma circle_bounds_check {cv : Cv2} x y r img height width W :
  np_shape2 img = Some (height, width) ->
  (fst (circle x y r img W) = Raised BoundsError
   <-> (x - r < 0 \/ x + r > Z.of_nat width \/ y - r < 0 \/ y + r > Z.of_nat height))
  /\ (fst (circle x y r img W) = Raised BoundsError
      \/ (r < 0 /\ fst (circle x y r img W) = Raised Cv2Error)
      \/ (0 <= r /\ fst (circle x y r img W) = Ok (tree (circle_mask x y r height width)))).
Proof.
  intros Hshape. rewrite circle_run, Hshape.
  pose proof (circle_outside_spec x y r height width) as Hout.
  destruct (circle_outside x y r height width); simpl.
  - split; [|now left]. split; [intros _; now apply Hout|reflexivity].
  - split.
    + split; [destruct (r <? 0); discriminate|].
      intros H. apply Hout in H. discriminate.
    + right. destruct (Z.ltb_spec r 0); [left|right]; split; auto.
Qed.

(** C3, the failing input.  On a 100 x 100 image [circle(95, 50, 5)] has the
    bounding box [[90,100] x [45,55]]; column 100 is not in [[0,100)], yet the
    call passes the bounds check ([x + r > width] is [100 > 100]) and returns
    an ROI. *)
Theorem circle_reaching_past_last_column_accepted {cv : Cv2} (W : World) :
  in_imageb 100 100 (95 + 5, 50) = false
  /\ fst (circle 95 50 5 (np_zeros 100 100) W) = Ok (tree (circle_mask 95 50 5 100 100)).
Proof.
  split; [reflexivity|].
  now rewrite circle_run.
Qed.

(** ** C4: the binary-mask check of [from_binary_image] *)








(** *** The reference instance meets the contracts *)



(** ** C5: the contours of the shape builders and the image *)

(** C5, as amended.  On a reference image of extents [width] x [height], every
    point of the contour returned by a successful [rectangle] call with
    [h >= 1] and [w >= 1] lies in [[0,width) x [0,height)]; so does every point
    of every contour returned by a successful [circle] or [ellipse] call,
    given that drawing keeps the shape of the mask and that extracted contours
    consist of pixels of the mask. *)
Theorem shape_builders_stay_in_image {cv : Cv2} img height width W :
  np_shape2 img = Some (height, width) ->
  drawing_keeps_shape cv ->
  contours_in_mask cv ->
  (forall x y h w roi,
      1 <= h -> 1 <= w ->
      fst (rectangle x y h w img W) = Ok roi -> roi_in_image height width roi)
  /\ (forall x y r roi,
      fst (circle x y r img W) = Ok roi -> roi_in_image height width roi)
  /\ (forall x y r1 r2 angle roi,
      fst (ellipse x y r1 r2 angle img W) = Ok roi -> roi_in_image height width roi).
Proof.
  intros Hshape [Hcircle Hellipse] Hmask. repeat split.
  - intros x y h w roi Hh Hw. rewrite rectangle_run, Hshape.
    destruct (rectangle_outside x y h w height width) eqn:Hout; [discriminate|].
    destruct (vertices_fit _); [|discriminate].
    intros [= <-]. unfold roi_in_image, rectangle_vertices. simpl.
    assert (Hin : ~ (x < 0 \/ y < 0 \/ x + w > Z.of_nat width \/ y + h > Z.of_nat height)).
    { intros H. apply rectangle_outside_spec in H. congruence. }
    repeat constructor; simpl; lia.
  - intros x y r roi. rewrite circle_run, Hshape.
    destruct (circle_outside x y r height width); [discriminate|].
    destruct (r <? 0); [discriminate|].
    intros [= <-]. apply Hmask. unfold circle_mask. now rewrite Hcircle.
  - intros x y r1 r2 angle roi. rewrite ellipse_run, Hshape.
    unfold ellipse_mask.
    destruct ((r1 <? 0) || (r2 <? 0)); [discriminate|].
    destruct (border_sum _) as [total|]; [|discriminate].
    destruct (total >? 0); [discriminate|].
    intros [= <-]. apply Hmask. now rewrite Hellipse.
Qed.

Lemma reference_paint_shape covers color m :
  nd_shape (Reference.paint covers color m) = nd_shape m.
Proof.
  unfold Reference.paint.
  destruct (nd_shape m) as [|h [|w [|k t]]] eqn:E; simpl; auto.
Qed.

Lemma reference_drawing_keeps_shape : drawing_keeps_shape Reference.cv.
Proof.
  split; simpl.
  - intros. apply reference_paint_shape.
  - intros. unfold Reference.ellipse.
    destruct (angle mod 180 =? 90); apply reference_paint_shape.
Qed.

Lemma reference_all_pixels_in_image h w p :
  In p (Reference.all_pixels h w) -> in_image h w p.
Proof.
  unfold Reference.all_pixels. rewrite in_flat_map.
  intros (y & Hy & Hp). apply in_map_iff in Hp as (x & <- & Hx).
  apply in_seq in Hy, Hx. unfold in_image. simpl. lia.
Qed.

Lemma reference_contours_in_mask : contours_in_mask Reference.cv.
Proof.
  intros m mode method h w Hshape. simpl. unfold Reference.findContours. simpl.
  apply Forall_map, Forall_forall. intros comp _.
  unfold Reference.contour_of. rewrite Hshape.
  apply Forall_forall. intros p Hp. apply filter_In in Hp as [Hp _].
  now apply reference_all_pixels_in_image.
Qed.

Lemma shape_builders_stay_in_image_witness :
  roi_in_image 5 9 ([[(1, 1); (1, 2); (3, 2); (3, 1)]], [(-1, -1, -1, -1)])
  /\ roi_in_image 5 9 ([[(2, 1); (1, 2); (3, 2); (2, 3)]], [(-1, -1, -1, -1)])
  /\ roi_in_image 5 9
       ([[(4, 1); (2, 2); (3, 2); (5, 2); (6, 2); (4, 3)]], [(-1, -1, -1, -1)]).
Proof.
  pose proof (shape_builders_stay_in_image (cv := Reference.cv) (np_zeros 5 9) 5 9 W0
                eq_refl reference_drawing_keeps_shape reference_contours_in_mask)
    as [Hrect [Hcirc Hell]].
  split; [|split].
  - apply (Hrect 1 1 2 3); [lia|lia|reflexivity].
  - apply (Hcirc 2 2 1). vm_compute. reflexivity.
  - apply (Hell 4 2 2 1 0). vm_compute. reflexivity.
Defined.

(** C5 as stated fails on a rectangle of height 0, and on one of width 0, that
    passes the bounds check: on a 10 x 10 image [rectangle(0, 0, 0, 5)]
    returns a contour through [(0,-1)] and [rectangle(0, 0, 5, 0)] one through
    [(-1,4)], neither of which is a pixel of the image. *)
Lemma shape_builders_stay_in_image_counterexample :
  rectangle_outside 0 0 0 5 10 10 = false
  /\ fst (rectangle 0 0 0 5 (np_zeros 10 10) W0)
     = Ok ([[(0, 0); (0, -1); (4, -1); (4, 0)]], [(-1, -1, -1, -1)])
  /\ in_imageb 10 10 (0, -1) = false
  /\ rectangle_outside 0 0 5 0 10 10 = false
  /\ fst (rectangle 0 0 5 0 (np_zeros 10 10) W0)
     = Ok ([[(0, 0); (0, 4); (-1, 4); (-1, 0)]], [(-1, -1, -1, -1)])
  /\ in_imageb 10 10 (-1, 4) = false.
Proof. repeat split. Qed.

(** ** [multi] by cases, for any reference image *)

Lemma multi_cases {cv : Cv2} img coord radius spacing nrows ncols W :
  multi img coord radius spacing nrows ncols W =
  match np_shape2 img with
  | None => (Raised ValueError, suppressed W)
  | Some (height, width) =>
      match multi_plan coord spacing nrows ncols with
      | NoMode => (Raised ConfigurationError, suppressed W)
      | NoSubscript => (Raised TypeError, suppressed W)
      | Centres cs =>
          if forallb (placeable radius height width) cs then
            let L := fold_left (step radius height width) cs (L0 height width) in
            let W3 := set_debug (debug (params W))
                        (Nat.iter (List.length cs) bump (suppressed W)) in
            match debug (params W), l_roi_contour1 L with
            | None, _ => (Ok (l_roi_contour L, l_roi_hierarchy L), W3)
            | Some _, Some roi_contour1 =>
                (Ok (l_roi_contour L, l_roi_hierarchy L), drew img roi_contour1 W3)
            | Some _, None => (Raised (UnboundLocalError "roi_contour1"), W3)
            end
          else
            (Raised (first_failure radius height width cs),
             Nat.iter (S (leading (placeable radius height width) cs)) bump (suppressed W))
      end
  end.
Proof.
  destruct (np_shape2 img) as [[height width]|] eqn:Hshape.
  - now apply multi_run.
  - unfold multi. now rewrite multi_with_run, Hshape.
Qed.

Lemma first_failure_cases radius height width cs :
  first_failure radius height width cs = BoundsError
  \/ first_failure radius height width cs = Cv2Error.
Proof.
  induction cs as [|c t IH]; simpl; [now left|].
  destruct (placeable radius height width c); [exact IH|].
  unfold placement_error. destruct (inside radius height width c); auto.
Qed.

Lemma placeable_nonneg radius height width c :
  0 <= radius -> placeable radius height width c = inside radius height width c.
Proof.
  intros H. unfold placeable.
  replace (0 <=? radius) with true by (symmetry; now apply Z.leb_le).
  apply andb_true_r.
Qed.

Lemma placeable_negative radius height width c :
  radius < 0 -> placeable radius height width c = false.
Proof.
  intros H. unfold placeable.
  replace (0 <=? radius) with false by (symmetry; apply Z.leb_gt; lia).
  apply andb_false_r.
Qed.

Lemma placeable_inside radius height width c :
  placeable radius height width c = true ->
  inside radius height width c = true /\ 0 <= radius.
Proof.
  unfold placeable. rewrite andb_true_iff, Z.leb_le. tauto.
Qed.

Lemma device_set_debug g W : device (params (set_debug g W)) = device (params W).
Proof. reflexivity. Qed.

Lemma debug_set_debug g W : debug (params (set_debug g W)) = g.
Proof. reflexivity. Qed.

Lemma outputs_set_debug g W : outputs (set_debug g W) = outputs W.
Proof. reflexivity. Qed.

Lemma device_suppressed W : device (params (suppressed W)) = device (params W) + 1.
Proof. reflexivity. Qed.

Lemma debug_suppressed W : debug (params (suppressed W)) = None.
Proof. reflexivity. Qed.

Lemma outputs_suppressed W : outputs (suppressed W) = outputs W.
Proof. reflexivity. Qed.

Lemma outputs_drew img c W :
  outputs (drew img c W) = outputs W ++ draw_output (params W) img c.
Proof. reflexivity. Qed.

Create Rewrite HintDb world.
#[local] Hint Rewrite device_drew debug_drew outputs_drew
  device_set_debug debug_set_debug outputs_set_debug
  device_iter_bump debug_iter_bump outputs_iter_bump
  device_suppressed debug_suppressed outputs_suppressed
  device_bump debug_bump outputs_bump : world.

Lemma multi_device {cv : Cv2} img coord radius spacing nrows ncols W :
  device (params (snd (multi img coord radius spacing nrows ncols W)))
  = device (params W) + 1 + Z.of_nat (circle_calls img coord radius spacing nrows ncols).
Proof.
  rewrite multi_cases. unfold circle_calls.
  destruct (np_shape2 img) as [[height width]|]; [|simpl; lia].
  destruct (multi_plan coord spacing nrows ncols) as [cs| |]; try (simpl; lia).
  destruct (forallb (placeable radius height width) cs).
  - cbv zeta. destruct (debug (params W)) as [mode|];
      [destruct (l_roi_contour1 _)|]; cbn [snd]; autorewrite with world; lia.
  - cbn [snd]. autorewrite with world. lia.
Qed.

(** A [multi] call that returns has placed every centre its inputs select. *)
Lemma multi_returns {cv : Cv2} img coord radius spacing nrows ncols W r :
  fst (multi img coord radius spacing nrows ncols W) = Ok r ->
  exists height width cs,
    np_shape2 img = Some (height, width)
    /\ multi_plan coord spacing nrows ncols = Centres cs
    /\ forallb (placeable radius height width) cs = true
    /\ r = (l_roi_contour (fold_left (step radius height width) cs (L0 height width)),
            l_roi_hierarchy (fold_left (step radius height width) cs (L0 height width))).
Proof.
  rewrite multi_cases.
  destruct (np_shape2 img) as [[height width]|]; [|discriminate].
  destruct (multi_plan coord spacing nrows ncols) as [cs| |]; try discriminate.
  destruct (forallb (placeable radius height width) cs) eqn:Hall; [|discriminate].
  intros H. exists height, width, cs.
  split; [reflexivity|]. split; [reflexivity|]. split; [assumption|].
  cbv zeta in H.
  destruct (debug (params W)); [destruct (l_roi_contour1 _)|]; simpl in H;
    congruence.
Qed.

Lemma length_flat_map_const {X Y : Type} (f : X -> list Y) (n : nat) (l : list X) :
  (forall x, List.length (f x) = n) ->
  List.length (flat_map f l) = (List.length l * n)%nat.
Proof.
  intros Hf. induction l as [|x l IH]; simpl; [reflexivity|].
  now rewrite length_app, Hf, IH.
Qed.

Lemma length_grid_centres cx cy s nr nc :
  List.length (grid_centres cx cy s nr nc) = (Z.to_nat nr * Z.to_nat nc)%nat.
Proof.
  unfold grid_centres.
  rewrite (length_flat_map_const _ (Z.to_nat nc)).
  - now rewrite length_py_range.
  - intros i. now rewrite length_map, length_py_range.
Qed.

(** ** C6: the device counter *)

Lemma plan_centres_count img coord radius spacing nrows ncols cs :
  multi_plan coord spacing nrows ncols = Centres cs ->
  Z.of_nat (List.length cs) = circles_placed (Multi img coord radius spacing nrows ncols).
Proof.
  unfold multi_plan, circles_placed. destruct coord as [cx cy|l].
  - destruct (is_not_None (py_and nrows ncols)); [|discriminate].
    unfold grid_plan. destruct nrows as [nr|]; [|discriminate].
    destruct (Z.leb_spec nr 0) as [Hnr|Hnr].
    + intros [= <-]. simpl. lia.
    + destruct spacing as [s|]; [|discriminate].
      destruct ncols as [nc|]; [|discriminate].
      intros [= <-]. rewrite length_grid_centres. simpl. nia.
  - destruct (negb _); [|discriminate]. now intros [= <-].
Qed.

Lemma run_simple_device {cv : Cv2} c W :
  is_multi c = false ->
  device (params (snd (run c W))) = device (params W) + 1.
Proof.
  destruct c as [b i|x y h w i|x y r i|x y r1 r2 a i|]; [| | | |discriminate];
    intros _; cbn [run outcome snd].
  - rewrite from_binary_image_run.
    destruct (_ =? _)%nat; reflexivity.
  - rewrite rectangle_run. destruct (np_shape2 i) as [[hh ww]|]; [|reflexivity].
    destruct (rectangle_outside _ _ _ _ _ _); [reflexivity|].
    destruct (vertices_fit _); reflexivity.
  - rewrite circle_run. destruct (np_shape2 i) as [[hh ww]|]; [|reflexivity].
    destruct (circle_outside _ _ _ _ _); [reflexivity|].
    destruct (r <? 0); reflexivity.
  - rewrite ellipse_run. destruct (np_shape2 i) as [[hh ww]|]; [|reflexivity].
    destruct ((r1 <? 0) || (r2 <? 0)); [reflexivity|].
    destruct (border_sum _) as [total|]; [|reflexivity].
    destruct (total >? 0); reflexivity.
Qed.

Lemma fst_outcome_Ok {A : Type} (r : Result A * World) :
  fst (outcome r) = Ok tt -> exists a, fst r = Ok a.
Proof. unfold outcome. simpl. destruct (fst r); [eauto|discriminate]. Qed.

Lemma fst_outcome_Raised {A : Type} (r : Result A * World) e :
  fst (outcome r) = Raised e <-> fst r = Raised e.
Proof.
  unfold outcome. simpl. destruct (fst r); split; congruence.
Qed.

(** C6, as amended.  No builder call makes the device counter smaller; a call
    of [from_binary_image], [rectangle], [circle] or [ellipse] that returns
    leaves it larger by exactly one, and a [multi] call that returns leaves it
    larger by exactly one plus the number of circles placed: in grid mode
    [max(nrows, 0) * max(ncols, 0)], which is [nrows * ncols] when neither
    count is negative, and in list mode the length of the coordinate list. *)
Theorem device_counter {cv : Cv2} (c : Call) (W : World) :
  device (params W) <= device (params (snd (run c W)))
  /\ (fst (run c W) = Ok tt ->
      device (params (snd (run c W))) = device (params W) + 1 + circles_placed c)
  /\ (is_multi c = false -> circles_placed c = 0)
  /\ (forall img cx cy radius spacing nr nc,
      c = Multi img (CoordTuple cx cy) radius spacing (Some nr) (Some nc) ->
      circles_placed c = Z.max 0 nr * Z.max 0 nc)
  /\ (forall img cx cy radius spacing nr nc,
      c = Multi img (CoordTuple cx cy) radius spacing (Some nr) (Some nc) ->
      0 <= nr -> 0 <= nc -> circles_placed c = nr * nc)
  /\ (forall img l radius spacing nrows ncols,
      c = Multi img (CoordList l) radius spacing nrows ncols ->
      circles_placed c = Z.of_nat (List.length l)).
Proof.
  repeat split.
  - destruct (is_multi c) eqn:Hc.
    + destruct c; try discriminate. cbn [run outcome snd]. rewrite multi_device. lia.
    + rewrite run_simple_device by assumption. lia.
  - intros Hok. destruct (is_multi c) eqn:Hc.
    + destruct c; try discriminate. cbn [run] in *.
      apply fst_outcome_Ok in Hok as [r Hr].
      cbn [outcome snd]. rewrite multi_device.
      apply multi_returns in Hr as (height & width & cs & Hshape & Hplan & Hall & _).
      rewrite <- (plan_centres_count img coord radius spacing nrows ncols cs Hplan).
      unfold circle_calls. now rewrite Hshape, Hplan, Hall.
    + rewrite run_simple_device by assumption.
      destruct c; try discriminate; simpl; lia.
  - destruct c; try discriminate; reflexivity.
  - now intros img cx cy radius spacing nr nc ->.
  - intros img cx cy radius spacing nr nc -> Hnr Hnc. simpl. lia.
  - now intros img l radius spacing nrows ncols ->.
Qed.

Lemma device_counter_witness :
  device (params (snd (run (cv := Reference.cv)
                         (Multi (np_zeros 7 12) (CoordTuple 2 2) 1 (Some (5, 3))
                                (Some 2) (Some 2)) Wplot)))
  = device (params Wplot) + 1 + 2 * 2.
Proof.
  pose proof (device_counter (cv := Reference.cv)
                (Multi (np_zeros 7 12) (CoordTuple 2 2) 1 (Some (5, 3)) (Some 2) (Some 2))
                Wplot) as [_ [Hok _]].
  apply Hok. vm_compute. reflexivity.
Defined.

(** C6 as stated fails on negative counts: [multi(img, (2, 2), 1, spacing=(5,
    1), nrows=-1, ncols=-1)] is a grid call ([nrows and ncols] is [-1], not
    [None]) whose loops run over empty ranges; with the debug mode off it
    returns and has incremented the counter by one, where [1 + nrows * ncols]
    is two. *)
Lemma device_counter_counterexample :
  fst (run (cv := Reference.cv)
         (Multi (np_zeros 5 12) (CoordTuple 2 2) 1 (Some (5, 1)) (Some (-1)) (Some (-1))) W0)
  = Ok tt
  /\ device (params (snd (run (cv := Reference.cv)
                            (Multi (np_zeros 5 12) (CoordTuple 2 2) 1 (Some (5, 1))
                                   (Some (-1)) (Some (-1))) W0)))
     = device (params W0) + 1
  /\ device (params W0) + 1 + (-1) * (-1) = device (params W0) + 2.
Proof. repeat split. Qed.

(** ** C9: the counter after a call that raised *)

Lemma run_device {cv : Cv2} c W :
  device (params (snd (run c W)))
  = device (params W) + 1 + Z.of_nat (inner_circle_calls c).
Proof.
  destruct (is_multi c) eqn:Hc.
  - destruct c; try discriminate. cbn [run outcome snd inner_circle_calls].
    apply multi_device.
  - rewrite run_simple_device by assumption.
    destruct c; try discriminate; simpl; lia.
Qed.

(** C9, as amended.  Every builder increments the device counter before it
    validates anything, so a call that raises, whatever it raises, leaves the
    counter incremented: by exactly one for [from_binary_image], [rectangle],
    [circle] and [ellipse], and for a [multi] call that fails with the
    configuration error; by one plus the number of circle-builder calls begun
    (at least one) for a [multi] call aborted inside a circle call, by its
    bounds error or by the error of [cv2.circle] on a negative radius, and in
    the latter way of failing no second circle call is begun. *)
Theorem counter_after_failure {cv : Cv2} (c : Call) (W : World) (e : Exception) :
  fst (run c W) = Raised e ->
  device (params (snd (run c W)))
  = device (params W) + 1 + Z.of_nat (inner_circle_calls c)
  /\ (is_multi c = false -> inner_circle_calls c = 0%nat)
  /\ (e = ConfigurationError -> inner_circle_calls c = 0%nat)
  /\ (is_multi c = true -> e = BoundsError \/ e = Cv2Error ->
      (1 <= inner_circle_calls c)%nat)
  /\ (forall img coord radius spacing nrows ncols,
      c = Multi img coord radius spacing nrows ncols -> radius < 0 ->
      e = BoundsError \/ e = Cv2Error -> inner_circle_calls c = 1%nat).
Proof.
  intros Hfail. split; [apply run_device|]. split; [|split; [|split]].
  - destruct c; try discriminate; reflexivity.
  - intros ->. destruct c; try reflexivity.
    cbn [run] in Hfail. apply fst_outcome_Raised in Hfail.
    rewrite multi_cases in Hfail. cbn [inner_circle_calls]. unfold circle_calls.
    destruct (np_shape2 img) as [[height width]|]; [|reflexivity].
    destruct (multi_plan coord spacing nrows ncols) as [cs| |]; try reflexivity.
    destruct (forallb (placeable radius height width) cs).
    + cbv zeta in Hfail.
      destruct (debug (params W)); [destruct (l_roi_contour1 _)|]; discriminate.
    + cbn [fst] in Hfail.
      destruct (first_failure_cases radius height width cs) as [H|H];
        rewrite H in Hfail; discriminate.
  - intros Hc He. destruct c; try discriminate.
    cbn [run] in Hfail. apply fst_outcome_Raised in Hfail.
    rewrite multi_cases in Hfail. cbn [inner_circle_calls]. unfold circle_calls.
    destruct (np_shape2 img) as [[height width]|];
      [|destruct He as [-> | ->]; discriminate].
    destruct (multi_plan coord spacing nrows ncols) as [cs| |];
      try (destruct He as [-> | ->]; discriminate).
    destruct (forallb (placeable radius height width) cs); [|lia].
    cbv zeta in Hfail.
    destruct (debug (params W)); [destruct (l_roi_contour1 _)|];
      destruct He as [-> | ->]; discriminate.
  - intros img coord radius spacing nrows ncols -> Hneg He.
    cbn [run] in Hfail. apply fst_outcome_Raised in Hfail.
    rewrite multi_cases in Hfail. cbn [inner_circle_calls]. unfold circle_calls.
    destruct (np_shape2 img) as [[height width]|];
      [|destruct He as [-> | ->]; discriminate].
    destruct (multi_plan coord spacing nrows ncols) as [cs| |];
      try (destruct He as [-> | ->]; discriminate).
    destruct (forallb (placeable radius height width) cs).
    + cbv zeta in Hfail.
      destruct (debug (params W)); [destruct (l_roi_contour1 _)|];
        destruct He as [-> | ->]; discriminate.
    + destruct cs as [|c0 t]; [reflexivity|]. cbn [leading].
      now rewrite placeable_negative.
Qed.

Lemma counter_after_failure_witness :
  device (params (snd (run (cv := Reference.cv) (Circle 3 3 5 (np_zeros 10 10)) W0)))
  = device (params W0) + 1 + 0
  /\ fst (run (cv := Reference.cv)
            (Multi (np_zeros 5 12) (CoordList [(2, 2); (3, 2); (50, 2)]) (-1)
                   None None None) W0)
     = Raised Cv2Error
  /\ device (params (snd (run (cv := Reference.cv)
                            (Multi (np_zeros 5 12) (CoordList [(2, 2); (3, 2); (50, 2)]) (-1)
                                   None None None) W0)))
     = device (params W0) + 1 + 1.
Proof.
  split; [|split; [reflexivity|]].
  - exact (proj1 (counter_after_failure (cv := Reference.cv)
                    (Circle 3 3 5 (np_zeros 10 10)) W0 BoundsError eq_refl)).
  - exact (proj1 (counter_after_failure (cv := Reference.cv)
                    (Multi (np_zeros 5 12) (CoordList [(2, 2); (3, 2); (50, 2)]) (-1)
                           None None None) W0 Cv2Error eq_refl)).
Defined.

(** C9 as stated fails for [multi]: when the only circle of a 1 x 1 grid is
    out of bounds, the call fails with a bounds error and the counter has gone
    up by two, once in [multi] and once in the circle builder. *)
Lemma counter_after_failure_counterexample :
  fst (run (cv := Reference.cv)
         (Multi (np_zeros 10 10) (CoordTuple 20 20) 5 (Some (10, 10)) (Some 1) (Some 1)) W0)
  = Raised BoundsError
  /\ device (params (snd (run (cv := Reference.cv)
                            (Multi (np_zeros 10 10) (CoordTuple 20 20) 5 (Some (10, 10))
                                   (Some 1) (Some 1)) W0)))
     = device (params W0) + 2.
Proof. split; reflexivity. Qed.

(** ** C10: the debug mode after [multi] has aborted *)

(** C10.  A [multi] call that aborts with a bounds error (an inner circle is
    out of bounds) or with the configuration error (the inputs select neither
    mode) leaves the debug mode off, whatever it was before the call; and these
    are the only errors [multi] raises through [fatal_error]. *)
Theorem multi_abort_leaves_debug_off {cv : Cv2} img coord radius spacing nrows ncols W msg :
  fst (multi img coord radius spacing nrows ncols W) = Raised (RuntimeError msg) ->
  debug (params (snd (multi img coord radius spacing nrows ncols W))) = None
  /\ (RuntimeError msg = BoundsError \/ RuntimeError msg = ConfigurationError).
Proof.
  rewrite multi_cases.
  destruct (np_shape2 img) as [[height width]|]; [|discriminate].
  destruct (multi_plan coord spacing nrows ncols) as [cs| |]; try discriminate.
  - destruct (forallb (placeable radius height width) cs).
    + cbv zeta. destruct (debug (params W)); [destruct (l_roi_contour1 _)|]; discriminate.
    + cbn [fst snd]. intros Hfail. split; [now autorewrite with world|].
      left. destruct (first_failure_cases radius height width cs) as [H|H];
        rewrite H in Hfail; [congruence|discriminate].
  - intros [= <-]. auto.
Qed.

Lemma multi_abort_leaves_debug_off_witness :
  debug (params Wplot) = Some "plot"%string
  /\ debug (params (snd (multi (cv := Reference.cv) (np_zeros 5 12) (CoordTuple 2 2) 1
                           (Some (5, 1)) (Some 1) (Some 3) Wplot))) = None.
Proof.
  split; [reflexivity|].
  exact (proj1 (multi_abort_leaves_debug_off (cv := Reference.cv) (np_zeros 5 12)
                  (CoordTuple 2 2) 1 (Some (5, 1)) (Some 1) (Some 3) Wplot
                  roi_outside_msg eq_refl)).
Defined.

(** ** C7: the modes of [multi] *)

Lemma multi_configuration_error {cv : Cv2} img coord radius spacing nrows ncols W height width :
  np_shape2 img = Some (height, width) ->
  (fst (multi img coord radius spacing nrows ncols W) = Raised ConfigurationError
   <-> multi_plan coord spacing nrows ncols = NoMode).
Proof.
  intros Hshape. rewrite multi_cases, Hshape.
  destruct (multi_plan coord spacing nrows ncols) as [cs| |]; simpl.
  - split; [|discriminate].
    destruct (forallb (placeable radius height width) cs).
    + cbv zeta. destruct (debug (params W)); [destruct (l_roi_contour1 _)|]; discriminate.
    + cbn [fst]. destruct (first_failure_cases radius height width cs) as [-> | ->];
        discriminate.
  - split; discriminate.
  - split; reflexivity.
Qed.

(** What the code does for a coordinate list: with [nrows] and [ncols] both
    given, the inputs select neither mode. *)
Lemma list_with_rows_and_columns_is_no_mode l spacing nr nc :
  multi_plan (CoordList l) spacing (Some nr) (Some nc) = NoMode.
Proof. unfold multi_plan, py_and. now destruct nr. Qed.

(** What the code does for a tuple: the inputs select neither mode exactly when
    [nrows and ncols] is [None], that is when [nrows] is absent, or [ncols] is
    absent and [nrows] is not 0. *)
Lemma tuple_is_no_mode cx cy spacing nrows ncols :
  multi_plan (CoordTuple cx cy) spacing nrows ncols = NoMode
  <-> (nrows = None \/ (ncols = None /\ nrows <> Some 0)).
Proof.
  unfold multi_plan. split.
  - destruct (is_not_None (py_and nrows ncols)) eqn:E.
    + intros H. now apply grid_plan_mode in H.
    + intros _. destruct nrows as [[|p|p]|]; [discriminate| | |now left];
        right; (split; [|discriminate]); simpl in E; now destruct ncols.
  - intros [->|[-> Hnr]]; [reflexivity|].
    destruct nrows as [[|p|p]|]; try reflexivity. now contradiction Hnr.
Qed.

(** C7, the failing input.  [multi(img, (20, 20), 5, nrows=0)] gives a single
    coordinate tuple without [ncols] (and without [spacing]); it is taken for a
    grid of no rows: no configuration error is raised, the call returns two
    empty lists when the debug mode is off and fails on the unbound
    [roi_contour1] when it is on. *)
Theorem multi_zero_rows_without_columns_is_grid {cv : Cv2} (W : World) :
  fst (multi (np_zeros 100 100) (CoordTuple 20 20) 5 None (Some 0) None W)
  = match debug (params W) with
    | None => Ok ([], [])
    | Some _ => Raised (UnboundLocalError "roi_contour1")
    end.
Proof.
  rewrite multi_cases. cbn.
  destruct (debug (params W)); reflexivity.
Qed.

(** ** C8: the debug mode around the inner circle calls *)

Lemma place_debug {cv : Cv2} img radius c L W :
  debug (params (snd (place_at circle img radius c L W))) = debug (params W).
Proof.
  unfold place_at. rewrite place_run.
  pose proof (circle_debug (fst c) (snd c) radius img W) as H.
  destruct (circle (fst c) (snd c) radius img W) as [[roi|e] W']; [|exact H].
  destruct (radius <? 0); exact H.
Qed.

(** Guarding every inner circle call changes nothing: in every [multi] call,
    whatever its outcome, each of them starts with the debug mode off. *)
Lemma multi_guard_never_fires {cv : Cv2} img coord radius spacing nrows ncols W :
  multi_with circle_asserting_debug_off img coord radius spacing nrows ncols W
  = multi img coord radius spacing nrows ncols W.
Proof.
  unfold multi. rewrite !multi_with_run.
  destruct (np_shape2 img) as [[height width]|]; [|reflexivity].
  destruct (multi_plan coord spacing nrows ncols) as [cs| |]; try reflexivity.
  rewrite (for_each_ext_inv (fun W => debug (params W) = None) cs
             (place_at circle_asserting_debug_off img radius)
             (place_at circle img radius)).
  - reflexivity.
  - intros c L W1 Hoff. unfold place_at. rewrite !place_run.
    unfold circle_asserting_debug_off. now rewrite Hoff.
  - intros c L W1 Hoff.
    replace (place_at circle_asserting_debug_off img radius c L W1)
      with (place_at circle img radius c L W1).
    + now rewrite place_debug.
    + unfold place_at. rewrite !place_run.
      unfold circle_asserting_debug_off. now rewrite Hoff.
  - reflexivity.
Qed.

(** C8.  For a [multi] call that returns: every inner circle-builder call sees
    the debug mode off (the call returns the same, and leaves the same context,
    when each of them is guarded by an assertion that it is off), so no
    placement draws: the outputs grow by nothing but the one drawing of the
    combined contours made at the end, if the caller's debug mode asks for it;
    and the debug mode after the call is the one before it. *)
Theorem multi_suppresses_and_restores_debug {cv : Cv2}
    img coord radius spacing nrows ncols W r W' :
  multi img coord radius spacing nrows ncols W = (Ok r, W') ->
  multi_with circle_asserting_debug_off img coord radius spacing nrows ncols W = (Ok r, W')
  /\ (exists roi_contour1,
        outputs W' = outputs W ++ draw_output (params W') img roi_contour1)
  /\ debug (params W') = debug (params W).
Proof.
  intros Hrun. split; [now rewrite multi_guard_never_fires|].
  rewrite multi_cases in Hrun.
  destruct (np_shape2 img) as [[height width]|]; [|discriminate].
  destruct (multi_plan coord spacing nrows ncols) as [cs| |]; try discriminate.
  destruct (forallb (placeable radius height width) cs); [|discriminate].
  cbv zeta in Hrun.
  destruct (debug (params W)) as [mode|] eqn:Hdebug.
  - destruct (l_roi_contour1 _) as [c|]; [|discriminate].
    injection Hrun as _ <-. split.
    + exists c. now autorewrite with world.
    + now autorewrite with world.
  - injection Hrun as _ <-. split.
    + exists []. rewrite draw_output_off by reflexivity.
      autorewrite with world. now rewrite app_nil_r.
    + now autorewrite with world.
Qed.

Lemma multi_suppresses_and_restores_debug_witness :
  (exists roi_contour1,
      outputs (snd (multi (cv := Reference.cv) (np_zeros 5 12) (CoordTuple 2 2) 1
                      (Some (5, 1)) (Some 1) (Some 2) Wplot))
      = outputs Wplot
        ++ draw_output
             (params (snd (multi (cv := Reference.cv) (np_zeros 5 12) (CoordTuple 2 2) 1
                             (Some (5, 1)) (Some 1) (Some 2) Wplot)))
             (np_zeros 5 12) roi_contour1)
  /\ debug (params (snd (multi (cv := Reference.cv) (np_zeros 5 12) (CoordTuple 2 2) 1
                           (Some (5, 1)) (Some 1) (Some 2) Wplot)))
     = debug (params Wplot).
Proof.
  exact (proj2 (multi_suppresses_and_restores_debug (cv := Reference.cv)
                  (np_zeros 5 12) (CoordTuple 2 2) 1 (Some (5, 1)) (Some 1) (Some 2)
                  Wplot _ _ (surjective_pairing _))).
Defined.

(** ** C1: the entries [multi] returns *)

(** What the code returns: entry [k] of either list is extracted, in external
    mode, from the shared mask on which the circles [0 .. k] have been
    drawn. *)
Lemma multi_entries {cv : Cv2} img coord radius spacing nrows ncols W r :
  fst (multi img coord radius spacing nrows ncols W) = Ok r ->
  exists height width cs,
    np_shape2 img = Some (height, width)
    /\ multi_plan coord spacing nrows ncols = Centres cs
    /\ forallb (placeable radius height width) cs = true
    /\ fst r = map (fun m => fst (external m)) (masks radius (np_zeros height width) cs)
    /\ snd r = map (fun m => snd (external m)) (masks radius (np_zeros height width) cs).
Proof.
  intros Hr.
  apply multi_returns in Hr as (height & width & cs & Hshape & Hplan & Hall & ->).
  exists height, width, cs. repeat split; try assumption; cbn [fst snd].
  - now rewrite steps_roi_contour.
  - now rewrite steps_roi_hierarchy.
Qed.

Lemma nth_error_masks {cv : Cv2} radius cs m k :
  (k < List.length cs)%nat ->
  nth_error (masks radius m cs) k
  = Some (fold_left (fun m c => cv2_circle m c radius 255 (-1)) (firstn (S k) cs) m).
Proof.
  revert m k. induction cs as [|c t IH]; intros m k Hk; simpl in Hk; [lia|].
  destruct k as [|k]; [reflexivity|].
  cbn [masks nth_error]. rewrite IH by lia. reflexivity.
Qed.

Lemma nth_error_flat_map_const {X Y : Type} (f : X -> list Y) (n : nat) l i j x :
  (forall x, List.length (f x) = n) ->
  nth_error l i = Some x -> (j < n)%nat ->
  nth_error (flat_map f l) (i * n + j) = nth_error (f x) j.
Proof.
  intros Hf. revert i. induction l as [|a t IH]; intros i Hi Hj.
  - now destruct i.
  - destruct i as [|i]; simpl in Hi.
    + injection Hi as ->. simpl. apply nth_error_app1. now rewrite Hf.
    + cbn [flat_map]. rewrite nth_error_app2 by (rewrite Hf; simpl; lia).
      rewrite Hf. replace (S i * n + j - n)%nat with (i * n + j)%nat by (simpl; lia).
      now apply IH.
Qed.

Lemma nth_error_py_range n i :
  0 <= i < n -> nth_error (py_range n) (Z.to_nat i) = Some i.
Proof.
  intros Hi. unfold py_range. rewrite nth_error_map.
  rewrite (nth_error_nth' _ 0%nat) by (rewrite length_seq; lia).
  rewrite seq_nth by lia. simpl. f_equal. lia.
Qed.

(** The centres of a grid come in row-major order: the one of row [i] and
    column [j] is [(coord.x + j * spacing.x, coord.y + i * spacing.y)], at
    index [i * ncols + j]. *)
Lemma grid_centres_row_major cx cy s nr nc i j :
  0 <= i < nr -> 0 <= j < nc ->
  nth_error (grid_centres cx cy s nr nc) (Z.to_nat (i * nc + j))
  = Some (cx + j * fst s, cy + i * snd s).
Proof.
  intros Hi Hj. unfold grid_centres.
  replace (Z.to_nat (i * nc + j)) with (Z.to_nat i * Z.to_nat nc + Z.to_nat j)%nat by nia.
  rewrite (nth_error_flat_map_const _ (Z.to_nat nc) _ _ _ i).
  - rewrite nth_error_map, nth_error_py_range by assumption. reflexivity.
  - intros x. now rewrite length_map, length_py_range.
  - now apply nth_error_py_range.
  - lia.
Qed.

(** The centres of the grid of the specification's example. *)
Lemma grid_centres_example :
  grid_centres 20 20 (10, 10) 2 2 = [(20, 20); (30, 20); (20, 30); (30, 30)].
Proof. reflexivity. Qed.

(** C1, the failing input.  A grid of one row and two columns of circles of
    radius 1, five pixels apart, on a 5 x 12 image; both circles pass the
    bounds check.  Whatever the OpenCV routines are, the second entry returned
    is extracted from the mask on which both circles have been drawn, not from
    a mask holding the circle at the second centre, [(7, 2)], alone.  On the
    reference instance that entry holds the contours of both circles (and its
    hierarchy two entries), where the second circle alone has the one contour
    shown last. *)
Theorem multi_entry_holds_all_circles_so_far {cv : Cv2} (W : World) :
  inside 1 5 12 (2, 2) = true /\ inside 1 5 12 (7, 2) = true
  /\ fst (multi (np_zeros 5 12) (CoordTuple 2 2) 1 (Some (5, 1)) (Some 1) (Some 2) W)
     = Ok ([ fst (external (cv2_circle (np_zeros 5 12) (2, 2) 1 255 (-1)));
             fst (external (cv2_circle (cv2_circle (np_zeros 5 12) (2, 2) 1 255 (-1))
                                       (7, 2) 1 255 (-1))) ],
           [ snd (external (cv2_circle (np_zeros 5 12) (2, 2) 1 255 (-1)));
             snd (external (cv2_circle (cv2_circle (np_zeros 5 12) (2, 2) 1 255 (-1))
                                       (7, 2) 1 255 (-1))) ])
  /\ external (cv := Reference.cv)
       (Reference.circle (Reference.circle (np_zeros 5 12) (2, 2) 1 255 (-1))
                         (7, 2) 1 255 (-1))
     = ([[(2, 1); (1, 2); (3, 2); (2, 3)]; [(7, 1); (6, 2); (8, 2); (7, 3)]],
        [(1, -1, -1, -1); (-1, 0, -1, -1)])
  /\ external (cv := Reference.cv) (circle_mask (cv := Reference.cv) 7 2 1 5 12)
     = ([[(7, 1); (6, 2); (8, 2); (7, 3)]], [(-1, -1, -1, -1)]).
Proof.
  split; [reflexivity|]. split; [reflexivity|]. split; [|split; vm_compute; reflexivity].
  rewrite multi_cases.
  change (np_shape2 (np_zeros 5 12)) with (Some (5%nat, 12%nat)).
  change (multi_plan (CoordTuple 2 2) (Some (5, 1)) (Some 1) (Some 2))
    with (Centres [(2, 2); (7, 2)]).
  change (forallb (placeable 1 5 12) [(2, 2); (7, 2)]) with true.
  cbv iota zeta.
  destruct (debug (params W)); reflexivity.
Qed.

(** * Further properties of the builders *)

(** ** The context a call leaves, by cases *)

Lemma outdir_bump W : debug_outdir (params (bump W)) = debug_outdir (params W).
Proof. reflexivity. Qed.

Lemma outdir_drew img c W : debug_outdir (params (drew img c W)) = debug_outdir (params W).
Proof. reflexivity. Qed.

Lemma outdir_set_debug g W : debug_outdir (params (set_debug g W)) = debug_outdir (params W).
Proof. reflexivity. Qed.

Lemma outdir_suppressed W : debug_outdir (params (suppressed W)) = debug_outdir (params W).
Proof. reflexivity. Qed.

Lemma outdir_iter_bump n W :
  debug_outdir (params (Nat.iter n bump W)) = debug_outdir (params W).
Proof.
  induction n as [|n IH]; [reflexivity|].
  change (Nat.iter (S n) bump W) with (bump (Nat.iter n bump W)).
  now rewrite outdir_bump.
Qed.

#[local] Hint Rewrite outdir_bump outdir_drew outdir_set_debug outdir_suppressed
  outdir_iter_bump : world.

(** A call of one of the four shape builders either raises, having only
    incremented the counter, or returns, having then drawn if asked to. *)
Lemma run_simple_cases {cv : Cv2} c W :
  is_multi c = false ->
  (exists e, run c W = (Raised e, bump W))
  \/ (exists img roi, run c W = (Ok tt, drew img roi (bump W))).
Proof.
  destruct c as [b i|x y h w i|x y r i|x y r1 r2 a i|]; [| | | |discriminate];
    intros _; cbn [run]; unfold outcome.
  - rewrite from_binary_image_run.
    destruct (_ =? _)%nat; cbn [fst snd]; eauto.
  - rewrite rectangle_run. destruct (np_shape2 i) as [[hh ww]|]; cbn [fst snd]; eauto.
    destruct (rectangle_outside _ _ _ _ _ _); cbn [fst snd]; eauto.
    destruct (vertices_fit _); cbn [fst snd]; eauto.
  - rewrite circle_run. destruct (np_shape2 i) as [[hh ww]|]; cbn [fst snd]; eauto.
    destruct (circle_outside _ _ _ _ _); cbn [fst snd]; eauto.
    destruct (r <? 0); cbn [fst snd]; eauto.
  - rewrite ellipse_run. destruct (np_shape2 i) as [[hh ww]|]; cbn [fst snd]; eauto.
    destruct ((r1 <? 0) || (r2 <? 0)); cbn [fst snd]; eauto.
    destruct (border_sum _) as [total|]; cbn [fst snd]; eauto.
    destruct (total >? 0); cbn [fst snd]; eauto.
Qed.

(** A [multi] call ends in one of four ways: it raises inside the part that
    runs with the debug mode off; it raises on the unbound [roi_contour1],
    after the debug mode has been restored; it returns without drawing; or it
    returns having drawn once. *)
Lemma run_multi_cases {cv : Cv2} img coord radius spacing nrows ncols W :
  let c := Multi img coord radius spacing nrows ncols in
  let Wloop := Nat.iter (inner_circle_calls c) bump (suppressed W) in
  (exists e, e <> UnboundLocalError "roi_contour1" /\ run c W = (Raised e, Wloop))
  \/ (debug (params W) <> None
      /\ run c W = (Raised (UnboundLocalError "roi_contour1"),
                    set_debug (debug (params W)) Wloop))
  \/ (debug (params W) = None /\ run c W = (Ok tt, set_debug (debug (params W)) Wloop))
  \/ (debug (params W) <> None
      /\ exists roi_contour1,
          run c W = (Ok tt, drew img roi_contour1 (set_debug (debug (params W)) Wloop))).
Proof.
  cbv zeta. cbn [run inner_circle_calls]. unfold outcome, circle_calls.
  rewrite multi_cases.
  destruct (np_shape2 img) as [[height width]|];
    [|left; exists ValueError; split; [discriminate|reflexivity]].
  destruct (multi_plan coord spacing nrows ncols) as [cs| |];
    [|left; exists TypeError; split; [discriminate|reflexivity]
     |left; exists ConfigurationError; split; [discriminate|reflexivity]].
  destruct (forallb (placeable radius height width) cs);
    [|left; exists (first_failure radius height width cs); split; [|reflexivity];
      destruct (first_failure_cases radius height width cs) as [-> | ->]; discriminate].
  cbv zeta. destruct (debug (params W)) as [mode|] eqn:Hdebug.
  - destruct (l_roi_contour1 _) as [c|].
    + right. right. right. split; [discriminate|]. now exists c.
    + right. left. split; [discriminate|reflexivity].
  - right. right. left. split; reflexivity.
Qed.

(** ** What a call does to the settings and to the outputs *)

(** X1.  No builder call changes the output directory, and a call of
    [from_binary_image], [rectangle], [circle] or [ellipse] never changes the
    debug mode, whether it returns or raises. *)
Theorem builders_keep_settings {cv : Cv2} (c : Call) (W : World) :
  debug_outdir (params (snd (run c W))) = debug_outdir (params W)
  /\ (is_multi c = false -> debug (params (snd (run c W))) = debug (params W)).
Proof.
  split.
  - destruct (is_multi c) eqn:Hc.
    + destruct c; try discriminate.
      destruct (run_multi_cases img coord radius spacing nrows ncols W)
        as [(e & _ & ->)|[(_ & ->)|[(_ & ->)|(_ & roi & ->)]]];
        cbn [snd]; now autorewrite with world.
    + destruct (run_simple_cases c W Hc) as [(e & ->)|(img & roi & ->)]; reflexivity.
  - intros Hc.
    destruct (run_simple_cases c W Hc) as [(e & ->)|(img & roi & ->)]; reflexivity.
Qed.

(** X2.  With the debug mode off no builder call sends anything out, whatever
    its outcome. *)
Theorem silent_when_debug_off {cv : Cv2} (c : Call) (W : World) :
  debug (params W) = None -> outputs (snd (run c W)) = outputs W.
Proof.
  intros Hoff. destruct (is_multi c) eqn:Hc.
  - destruct c; try discriminate.
    destruct (run_multi_cases img coord radius spacing nrows ncols W)
      as [(e & _ & ->)|[(_ & ->)|[(_ & ->)|(Hon & _)]]];
      [| | |contradiction]; cbn [snd]; now autorewrite with world.
  - destruct (run_simple_cases c W Hc) as [(e & ->)|(img & roi & ->)]; [reflexivity|].
    cbn [snd]. now rewrite drew_off.
Qed.

Lemma silent_when_debug_off_witness :
  outputs (snd (run (cv := Reference.cv) (Circle 2 2 1 (np_zeros 5 6)) W0)) = outputs W0.
Proof.
  exact (silent_when_debug_off (cv := Reference.cv) (Circle 2 2 1 (np_zeros 5 6)) W0 eq_refl).
Defined.

(** X3.  A builder call that raises has sent nothing out, in any debug
    mode. *)
Theorem failed_call_draws_nothing {cv : Cv2} (c : Call) (W : World) (e : Exception) :
  fst (run c W) = Raised e -> outputs (snd (run c W)) = outputs W.
Proof.
  destruct (is_multi c) eqn:Hc.
  - destruct c; try discriminate.
    destruct (run_multi_cases img coord radius spacing nrows ncols W)
      as [(e' & _ & ->)|[(_ & ->)|[(_ & ->)|(_ & roi & ->)]]];
      cbn [fst snd]; try discriminate; intros _; now autorewrite with world.
  - destruct (run_simple_cases c W Hc) as [(e' & ->)|(img & roi & ->)];
      cbn [fst snd]; [reflexivity|discriminate].
Qed.

Lemma failed_call_draws_nothing_witness :
  outputs (snd (run (cv := Reference.cv) (Rectangle 4 4 5 5 (np_zeros 5 6)) Wplot))
  = outputs Wplot.
Proof.
  exact (failed_call_draws_nothing (cv := Reference.cv)
           (Rectangle 4 4 5 5 (np_zeros 5 6)) Wplot BoundsError eq_refl).
Defined.

Lemma outputs_drew_modes img c W :
  exists pic,
    outputs (drew img c W)
    = outputs W
      ++ match debug (params W) with
         | Some mode =>
             if String.eqb mode "print" then [Printed pic (roi_path (params W))]
             else if String.eqb mode "plot" then [Plotted pic]
             else []
         | None => []
         end.
Proof.
  eexists. unfold drew, emit_all, draw_output, roi_path, roi_file. cbn [outputs].
  destruct (debug (params W)) as [mode|]; [|reflexivity].
  destruct (String.eqb mode "print"); [reflexivity|].
  destruct (String.eqb mode "plot"); reflexivity.
Qed.

(** X4.  A builder call that returns has sent out exactly one picture when the
    debug mode is ["print"] or ["plot"], and nothing in any other mode; in
    print mode the file is named after the value the device counter has when
    the call returns: [<debug_outdir>/<device>_roi.png]. *)
Theorem returning_call_draws_once {cv : Cv2} (c : Call) (W : World) :
  fst (run c W) = Ok tt ->
  exists pic,
    outputs (snd (run c W))
    = outputs W
      ++ match debug (params W) with
         | Some mode =>
             if String.eqb mode "print"
             then [Printed pic (roi_path (params (snd (run c W))))]
             else if String.eqb mode "plot" then [Plotted pic]
             else []
         | None => []
         end.
Proof.
  destruct (is_multi c) eqn:Hc.
  - destruct c; try discriminate.
    destruct (run_multi_cases img coord radius spacing nrows ncols W)
      as [(e' & _ & ->)|[(_ & ->)|[(Hoff & ->)|(_ & roi & ->)]]];
      cbn [fst snd]; try discriminate; intros _.
    + exists (mk_Picture img []). rewrite Hoff. autorewrite with world.
      now rewrite app_nil_r.
    + destruct (outputs_drew_modes img roi
                  (set_debug (debug (params W))
                     (Nat.iter (inner_circle_calls (Multi img coord radius spacing nrows ncols))
                        bump (suppressed W)))) as [pic Hpic].
      exists pic. rewrite Hpic. now autorewrite with world.
  - destruct (run_simple_cases c W Hc) as [(e' & ->)|(img & roi & ->)];
      cbn [fst snd]; [discriminate|]. intros _.
    destruct (outputs_drew_modes img roi (bump W)) as [pic Hpic].
    exists pic. rewrite Hpic. now autorewrite with world.
Qed.

Lemma returning_call_draws_once_witness :
  exists pic,
    outputs (snd (run (cv := Reference.cv) (Rectangle 1 1 2 3 (np_zeros 5 6))
                    (set_debug (Some "print"%string) W0)))
    = [Printed pic "./1_roi.png"].
Proof.
  exact (returning_call_draws_once (cv := Reference.cv) (Rectangle 1 1 2 3 (np_zeros 5 6))
           (set_debug (Some "print"%string) W0) eq_refl).
Defined.

(** ** The files printed in debug mode *)

Lemma string_length_append (a b : string) :
  String.length (a ++ b) = (String.length a + String.length b)%nat.
Proof. induction a as [|c a IH]; simpl; [reflexivity|]. now rewrite IH. Qed.

Lemma string_append_cancel_l (a b1 b2 : string) :
  (a ++ b1 = a ++ b2)%string -> b1 = b2.
Proof. induction a as [|c a IH]; simpl; [auto|]. intros [= H]. auto. Qed.

Lemma string_append_cancel_r (s a1 a2 : string) :
  (a1 ++ s = a2 ++ s)%string -> a1 = a2.
Proof.
  revert a2. induction a1 as [|c a1 IH]; intros [|c2 a2] H; simpl in H.
  - reflexivity.
  - apply (f_equal String.length) in H. simpl in H.
    rewrite string_length_append in H. lia.
  - apply (f_equal String.length) in H. simpl in H.
    rewrite string_length_append in H. lia.
  - injection H as -> H. f_equal. now apply IH.
Qed.

(** [str] gives different integers different strings. *)
Lemma py_str_injective a b : py_str a = py_str b -> a = b.
Proof.
  assert (Hnil : forall z, Z.to_int z <> Decimal.Pos Decimal.Nil
                          /\ Z.to_int z <> Decimal.Neg Decimal.Nil).
  { intros [|p|p]; simpl; split; try discriminate;
      intros [= H]; now apply DecimalPos.Unsigned.to_uint_nonnil in H. }
  unfold py_str. intros H.
  assert (Hint : Some (Z.to_int a) = Some (Z.to_int b)).
  { rewrite <- (NilZero.isi (Z.to_int a)) by apply Hnil.
    rewrite <- (NilZero.isi (Z.to_int b)) by apply Hnil.
    now rewrite H. }
  injection Hint as Hint.
  rewrite <- (DecimalZ.of_to a), <- (DecimalZ.of_to b). now f_equal.
Qed.

Lemma os_path_join_injective a b1 b2 : os_path_join a b1 = os_path_join a b2 -> b1 = b2.
Proof.
  unfold os_path_join. destruct a as [|c a]; [auto|].
  destruct (ends_with_slash (String c a)); intros H.
  - now apply string_append_cancel_l in H.
  - apply string_append_cancel_l in H. now apply string_append_cancel_l in H.
Qed.

Lemma roi_file_injective outdir d1 d2 : roi_file outdir d1 = roi_file outdir d2 -> d1 = d2.
Proof.
  unfold roi_file. intros H.
  apply os_path_join_injective, string_append_cancel_r in H.
  now apply py_str_injective.
Qed.

Lemma printed_paths_app l1 l2 :
  printed_paths (l1 ++ l2) = printed_paths l1 ++ printed_paths l2.
Proof. unfold printed_paths. apply flat_map_app. Qed.

(** What one call adds to the outputs: at most one printed file, and that one
    named after the counter the call leaves. *)
Lemma run_prints {cv : Cv2} c W :
  exists outs,
    outputs (snd (run c W)) = outputs W ++ outs
    /\ (printed_paths outs = []
        \/ printed_paths outs = [roi_path (params (snd (run c W)))]).
Proof.
  assert (Hdrew : forall img roi W1,
    exists outs, outputs (drew img roi W1) = outputs W1 ++ outs
                 /\ (printed_paths outs = [] \/ printed_paths outs = [roi_path (params W1)])).
  { intros img roi W1. destruct (outputs_drew_modes img roi W1) as [pic ->].
    eexists. split; [reflexivity|].
    destruct (debug (params W1)) as [mode|]; [|now left].
    destruct (String.eqb mode "print"); [now right|].
    destruct (String.eqb mode "plot"); now left. }
  assert (Hnil : forall W1, exists outs : list Output,
    outputs W1 = outputs W1 ++ outs
    /\ (printed_paths outs = [] \/ printed_paths outs = [roi_path (params W1)])).
  { intros W1. exists []. rewrite app_nil_r. auto. }
  destruct (is_multi c) eqn:Hc.
  - destruct c; try discriminate.
    destruct (run_multi_cases img coord radius spacing nrows ncols W)
      as [(e' & _ & ->)|[(_ & ->)|[(_ & ->)|(_ & roi & ->)]]]; cbn [snd].
    + destruct (Hnil W) as (outs & H1 & H2). exists []. autorewrite with world.
      rewrite app_nil_r. auto.
    + exists []. autorewrite with world. rewrite app_nil_r. auto.
    + exists []. autorewrite with world. rewrite app_nil_r. auto.
    + match goal with |- context [drew img roi ?W1] =>
        destruct (Hdrew img roi W1) as (outs & H1 & H2) end.
      exists outs. rewrite H1. autorewrite with world in *. auto.
  - destruct (run_simple_cases c W Hc) as [(e' & ->)|(img & roi & ->)]; cbn [snd].
    + exists []. rewrite app_nil_r. auto.
    + destruct (Hdrew img roi (bump W)) as (outs & H1 & H2). exists outs. auto.
Qed.

Lemma run_outdir {cv : Cv2} c W :
  debug_outdir (params (snd (run c W))) = debug_outdir (params W).
Proof.
  destruct (is_multi c) eqn:Hc.
  - destruct c; try discriminate.
    destruct (run_multi_cases img coord radius spacing nrows ncols W)
      as [(e & _ & ->)|[(_ & ->)|[(_ & ->)|(_ & roi & ->)]]];
      cbn [snd]; now autorewrite with world.
  - destruct (run_simple_cases c W Hc) as [(e & ->)|(img & roi & ->)]; reflexivity.
Qed.

Lemma run_keeps_files_in_order {cv : Cv2} outdir c W :
  debug_outdir (params W) = outdir ->
  files_in_order outdir W -> files_in_order outdir (snd (run c W)).
Proof.
  intros Hdir [Hnodup Hall].
  destruct (run_prints c W) as (outs & Houts & Hpaths).
  pose proof (run_device c W) as Hdev.
  pose proof (run_outdir c W) as Hout.
  unfold files_in_order. rewrite Houts, printed_paths_app.
  assert (Hold : Forall (fun path => exists d, d <= device (params (snd (run c W)))
                                               /\ path = roi_file outdir d)
                        (printed_paths (outputs W))).
  { eapply Forall_impl; [|exact Hall]. intros path (d & Hd & ->). exists d. split; [lia|auto]. }
  destruct Hpaths as [->| ->].
  - rewrite app_nil_r. now split.
  - split.
    + apply NoDup_app; [assumption|repeat constructor; intros []|].
      intros path Hin [<-|[]].
      rewrite Forall_forall in Hall. destruct (Hall _ Hin) as (d & Hd & Heq).
      unfold roi_path in Heq. rewrite Hout, Hdir in Heq.
      apply roi_file_injective in Heq. lia.
    + apply Forall_app. split; [assumption|].
      constructor; [|constructor].
      exists (device (params (snd (run c W)))). split; [lia|].
      unfold roi_path. now rewrite Hout, Hdir.
Qed.

Lemma after_calls_keeps_files_in_order {cv : Cv2} outdir cs W :
  debug_outdir (params W) = outdir ->
  files_in_order outdir W -> files_in_order outdir (after_calls cs W).
Proof.
  revert W. induction cs as [|c cs IH]; intros W Hdir Hin; [exact Hin|].
  cbn [after_calls]. apply IH.
  - now rewrite run_outdir.
  - now apply run_keeps_files_in_order.
Qed.

(** X5.  Starting where nothing has been sent out yet, the files printed by a
    run of builder calls, in whatever modes and with whatever outcomes, are
    pairwise distinct: no debug picture overwrites an earlier one. *)
Theorem printed_files_never_collide {cv : Cv2} (cs : list Call) (W : World) :
  outputs W = [] -> NoDup (printed_paths (outputs (after_calls cs W))).
Proof.
  intros Hfresh.
  apply (after_calls_keeps_files_in_order (debug_outdir (params W)) cs W eq_refl).
  unfold files_in_order. rewrite Hfresh. split; constructor.
Qed.

Lemma printed_files_never_collide_witness :
  printed_paths
    (outputs (after_calls (cv := Reference.cv)
                [Rectangle 1 1 2 3 (np_zeros 5 6); Circle 9 9 1 (np_zeros 5 6);
                 Circle 2 2 1 (np_zeros 5 6)]
                (set_debug (Some "print"%string) W0)))
  = ["./1_roi.png"; "./3_roi.png"]%string
  /\ NoDup
       (printed_paths
          (outputs (after_calls (cv := Reference.cv)
                      [Rectangle 1 1 2 3 (np_zeros 5 6); Circle 9 9 1 (np_zeros 5 6);
                       Circle 2 2 1 (np_zeros 5 6)]
                      (set_debug (Some "print"%string) W0)))).
Proof.
  split; [vm_compute; reflexivity|].
  exact (printed_files_never_collide (cv := Reference.cv)
           [Rectangle 1 1 2 3 (np_zeros 5 6); Circle 9 9 1 (np_zeros 5 6);
            Circle 2 2 1 (np_zeros 5 6)]
           (set_debug (Some "print"%string) W0) eq_refl).
Defined.

(** ** The result of a call and the context *)

(** X6.  With the debug mode off, what a builder returns, or the error it
    raises, does not depend on the rest of the context it is called in: the
    device counter, the output directory and what has been sent out before
    are never consulted. *)
Theorem result_independent_of_context {cv : Cv2} (W1 W2 : World) :
  debug (params W1) = None -> debug (params W2) = None ->
  (forall bin_img img,
      fst (from_binary_image bin_img img W1) = fst (from_binary_image bin_img img W2))
  /\ (forall x y h w img, fst (rectangle x y h w img W1) = fst (rectangle x y h w img W2))
  /\ (forall x y r img, fst (circle x y r img W1) = fst (circle x y r img W2))
  /\ (forall x y r1 r2 angle img,
      fst (ellipse x y r1 r2 angle img W1) = fst (ellipse x y r1 r2 angle img W2))
  /\ (forall img coord radius spacing nrows ncols,
      fst (multi img coord radius spacing nrows ncols W1)
      = fst (multi img coord radius spacing nrows ncols W2)).
Proof.
  intros Hoff1 Hoff2. repeat split.
  - intros. rewrite !from_binary_image_run. now destruct (_ =? _)%nat.
  - intros. rewrite !rectangle_run. destruct (np_shape2 img) as [[hh ww]|]; [|reflexivity].
    destruct (rectangle_outside _ _ _ _ _ _); [reflexivity|].
    now destruct (vertices_fit _).
  - intros. rewrite !circle_run. destruct (np_shape2 img) as [[hh ww]|]; [|reflexivity].
    destruct (circle_outside _ _ _ _ _); [reflexivity|].
    now destruct (r <? 0).
  - intros. rewrite !ellipse_run. destruct (np_shape2 img) as [[hh ww]|]; [|reflexivity].
    destruct ((r1 <? 0) || (r2 <? 0)); [reflexivity|].
    destruct (border_sum _) as [total|]; [|reflexivity].
    now destruct (total >? 0).
  - intros img coord radius spacing nrows ncols. rewrite !multi_cases.
    destruct (np_shape2 img) as [[height width]|]; [|reflexivity].
    destruct (multi_plan coord spacing nrows ncols) as [cs| |]; try reflexivity.
    destruct (forallb (placeable radius height width) cs); [|reflexivity].
    cbv zeta. now rewrite Hoff1, Hoff2.
Qed.

Lemma result_independent_of_context_witness :
  fst (multi (cv := Reference.cv) (np_zeros 5 12) (CoordList [(2, 2); (7, 2)]) 1
         None None None W0)
  = fst (multi (cv := Reference.cv) (np_zeros 5 12) (CoordList [(2, 2); (7, 2)]) 1
           None None None
           {| params := {| device := 41; debug := None; debug_outdir := "/tmp" |};
              outputs := [Plotted (mk_Picture (np_zeros 1 1) [])] |}).
Proof.
  exact (proj2 (proj2 (proj2 (proj2
           (result_independent_of_context (cv := Reference.cv) W0
              {| params := {| device := 41; debug := None; debug_outdir := "/tmp" |};
                 outputs := [Plotted (mk_Picture (np_zeros 1 1) [])] |}
              eq_refl eq_refl))))
           (np_zeros 5 12) (CoordList [(2, 2); (7, 2)]) 1 None None None).
Defined.

(** ** The bounds checks, read on the pixels *)

(** X7.  For a rectangle of at least one row and one column the bounds error
    is raised exactly when one of its four vertices is no pixel of the
    image. *)
Theorem rectangle_rejects_exactly_off_image x y h w img height width W :
  np_shape2 img = Some (height, width) ->
  1 <= h -> 1 <= w ->
  (fst (rectangle x y h w img W) = Raised BoundsError
   <-> ~ Forall (in_image height width) (rectangle_vertices x y h w)).
Proof.
  intros Hshape Hh Hw. rewrite rectangle_run, Hshape.
  unfold rectangle_vertices, rectangle_outside.
  assert (Hall : Forall (in_image height width)
                   [(x, y); (x, y + h - 1); (x + w - 1, y + h - 1); (x + w - 1, y)]
                 <-> (0 <= x /\ 0 <= y /\ x + w <= Z.of_nat width /\ y + h <= Z.of_nat height)).
  { split.
    - intros H. inversion_clear H as [|? ? H1 H']. inversion_clear H' as [|? ? H2 H''].
      inversion_clear H'' as [|? ? H3 H4]. unfold in_image in *. simpl in *. lia.
    - intros H. repeat constructor; simpl; lia. }
  rewrite Hall.
  destruct (Z.ltb_spec x 0); cbn [orb fst]; [split; [lia|reflexivity]|].
  destruct (Z.ltb_spec y 0); cbn [orb fst]; [split; [lia|reflexivity]|].
  destruct (x + w >? Z.of_nat width) eqn:E1; cbn [orb fst]; [split; [lia|reflexivity]|].
  destruct (y + h >? Z.of_nat height) eqn:E2; cbn [orb fst]; [split; [lia|reflexivity]|].
  split.
  - destruct (vertices_fit _); discriminate.
  - intros Hn. exfalso. apply Hn. lia.
Qed.

Lemma rectangle_rejects_exactly_off_image_witness :
  fst (rectangle 4 1 2 3 (np_zeros 5 6) W0) = Raised BoundsError.
Proof.
  apply (rectangle_rejects_exactly_off_image 4 1 2 3 (np_zeros 5 6) 5 6 W0 eq_refl);
    [lia|lia|].
  intros H. inversion_clear H as [|? ? H1 H']. inversion_clear H' as [|? ? H2 H''].
  inversion_clear H'' as [|? ? H3 H4]. unfold in_image in H3. simpl in H3. lia.
Defined.

Lemma zsum_nonneg l : Forall (fun v => 0 <= v) l -> 0 <= zsum l.
Proof. induction 1; simpl; lia. Qed.

Lemma zsum_positive l :
  Forall (fun v => 0 <= v) l -> (0 < zsum l <-> exists v, In v l /\ v <> 0).
Proof.
  induction 1 as [|a l Ha Hl IH]; simpl.
  - split; [lia|intros (v & [] & _)].
  - pose proof (zsum_nonneg l Hl). split.
    + intros Hpos. destruct (Z.eq_dec a 0) as [->|Hne].
      * destruct (proj1 IH ltac:(lia)) as (v & Hv & Hnz). eauto.
      * exists a. auto.
    + intros (v & [<-|Hv] & Hnz); [lia|].
      assert (0 < zsum l) by (apply IH; eauto). lia.
Qed.

Lemma In_firstn {A : Type} (d : A) n l v :
  (n <= List.length l)%nat ->
  (In v (firstn n l) <-> exists i, (i < n)%nat /\ v = nth i l d).
Proof.
  revert l. induction n as [|n IH]; intros l Hn; simpl.
  - split; [intros []|intros (i & Hi & _); lia].
  - destruct l as [|a l]; simpl in Hn; [lia|]. simpl. rewrite IH by lia. split.
    + intros [<-|(i & Hi & ->)]; [exists 0%nat; split; [lia|reflexivity]|].
      exists (S i). split; [lia|reflexivity].
    + intros ([|i] & Hi & ->); [now left|]. right. exists i. split; [lia|reflexivity].
Qed.

Lemma nth_skipn_plus {A : Type} (d : A) k i l : nth i (skipn k l) d = nth (k + i) l d.
Proof.
  revert l. induction k as [|k IH]; intros l; [reflexivity|].
  destruct l as [|a l]; simpl; [now destruct i|apply IH].
Qed.

Lemma In_nd_row a h w y v :
  List.length (nd_data a) = (h * w)%nat -> (y < h)%nat ->
  (In v (nd_row a w y) <-> exists x, (x < w)%nat /\ v = pixel a w x y).
Proof.
  intros Hlen Hy. unfold nd_row, pixel.
  rewrite (In_firstn 0) by (rewrite length_skipn; nia).
  split; intros (x & Hx & ->); exists x; (split; [assumption|]);
    now rewrite nth_skipn_plus.
Qed.

Lemma In_nd_col a h w x v :
  In v (nd_col a h w x) <-> exists y, (y < h)%nat /\ v = pixel a w x y.
Proof.
  unfold nd_col, pixel. rewrite in_map_iff. split.
  - intros (y & <- & Hy). apply in_seq in Hy. exists y. split; [lia|reflexivity].
  - intros (y & Hy & ->). exists y. split; [reflexivity|]. apply in_seq. lia.
Qed.

Lemma pixel_uint8 h w m x y :
  uint8_mask h w m -> (x < w)%nat -> (y < h)%nat -> 0 <= pixel m w x y <= 255.
Proof.
  intros (_ & Hlen & Hall) Hx Hy. unfold pixel.
  rewrite Forall_forall in Hall. apply Hall, nth_In. nia.
Qed.

(** For a [uint8] mask the sum of the four edges is positive exactly when a
    pixel on an edge is not zero. *)
Lemma border_sum_positive h w m :
  uint8_mask h w m -> (0 < h)%nat -> (0 < w)%nat ->
  exists total,
    border_sum m = Some total
    /\ (0 < total
        <-> exists x y, (x < w)%nat /\ (y < h)%nat /\ on_edge h w x y /\ pixel m w x y <> 0).
Proof.
  intros Hmask Hh Hw. pose proof Hmask as (Hshape & Hlen & Hall).
  unfold border_sum. rewrite Hshape.
  replace ((h =? 0) || (w =? 0))%nat with false
    by (symmetry; apply orb_false_iff; split; apply Nat.eqb_neq; lia).
  eexists. split; [reflexivity|].
  assert (Hrow : forall y, (y < h)%nat -> Forall (fun v => 0 <= v) (nd_row m w y)).
  { intros y Hy. apply Forall_forall. intros v Hv.
    apply (In_nd_row m h w y v Hlen Hy) in Hv as (x & Hx & ->).
    now apply (pixel_uint8 h w m x y). }
  assert (Hcol : forall x, (x < w)%nat -> Forall (fun v => 0 <= v) (nd_col m h w x)).
  { intros x Hx. apply Forall_forall. intros v Hv.
    apply In_nd_col in Hv as (y & Hy & ->).
    now apply (pixel_uint8 h w m x y). }
  pose proof (zsum_nonneg _ (Hrow 0%nat Hh)) as N1.
  pose proof (zsum_nonneg _ (Hrow (h - 1)%nat ltac:(lia))) as N2.
  pose proof (zsum_nonneg _ (Hcol 0%nat Hw)) as N3.
  pose proof (zsum_nonneg _ (Hcol (w - 1)%nat ltac:(lia))) as N4.
  pose proof (zsum_positive _ (Hrow 0%nat Hh)) as P1.
  pose proof (zsum_positive _ (Hrow (h - 1)%nat ltac:(lia))) as P2.
  pose proof (zsum_positive _ (Hcol 0%nat Hw)) as P3.
  pose proof (zsum_positive _ (Hcol (w - 1)%nat ltac:(lia))) as P4.
  split.
  - intros Hpos.
    assert (Hone : 0 < zsum (nd_row m w 0) \/ 0 < zsum (nd_row m w (h - 1))
                   \/ 0 < zsum (nd_col m h w 0) \/ 0 < zsum (nd_col m h w (w - 1))) by lia.
    destruct Hone as [H|[H|[H|H]]].
    + apply P1 in H as (v & Hv & Hnz).
      apply (In_nd_row m h w) in Hv as (x & Hx & ->); [|assumption|lia].
      exists x, 0%nat. unfold on_edge. repeat split; auto.
    + apply P2 in H as (v & Hv & Hnz).
      apply (In_nd_row m h w) in Hv as (x & Hx & ->); [|assumption|lia].
      exists x, (h - 1)%nat. unfold on_edge. repeat split; auto; lia.
    + apply P3 in H as (v & Hv & Hnz).
      apply In_nd_col in Hv as (y & Hy & ->).
      exists 0%nat, y. unfold on_edge. repeat split; auto.
    + apply P4 in H as (v & Hv & Hnz).
      apply In_nd_col in Hv as (y & Hy & ->).
      exists (w - 1)%nat, y. unfold on_edge. repeat split; auto; lia.
  - intros (x & y & Hx & Hy & Hedge & Hnz).
    destruct Hedge as [-> | [-> | [-> | ->]]].
    + assert (0 < zsum (nd_col m h w 0)); [|lia].
      apply P3. exists (pixel m w 0 y). split; [|assumption].
      apply In_nd_col. eauto.
    + assert (0 < zsum (nd_col m h w (w - 1))); [|lia].
      apply P4. exists (pixel m w (w - 1) y). split; [|assumption].
      apply In_nd_col. eauto.
    + assert (0 < zsum (nd_row m w 0)); [|lia].
      apply P1. exists (pixel m w x 0). split; [|assumption].
      apply (In_nd_row m h w); eauto.
    + assert (0 < zsum (nd_row m w (h - 1))); [|lia].
      apply P2. exists (pixel m w x (h - 1)). split; [|assumption].
      apply (In_nd_row m h w); eauto; lia.
Qed.

(** X8.  On a rasterised mask of [uint8] pixels the ellipse builder raises
    the bounds error exactly when a pixel of the first or last row or column
    of the mask is set: it is the drawn ellipse, clipped at the image, that is
    tested, not its parameters. *)
Theorem ellipse_rejects_exactly_edge_touching {cv : Cv2}
    x y r1 r2 angle img height width W :
  np_shape2 img = Some (height, width) ->
  (0 < height)%nat -> (0 < width)%nat ->
  uint8_mask height width (ellipse_mask x y r1 r2 angle height width) ->
  (fst (ellipse x y r1 r2 angle img W) = Raised BoundsError
   <-> exists px py,
         (px < width)%nat /\ (py < height)%nat /\ on_edge height width px py
         /\ pixel (ellipse_mask x y r1 r2 angle height width) width px py <> 0).
Proof.
  intros Hshape Hh Hw Hmask. rewrite ellipse_run, Hshape.
  destruct ((r1 <? 0) || (r2 <? 0)) eqn:Hneg.
  - split; [discriminate|]. intros (px & py & _ & _ & _ & Hnz). exfalso. apply Hnz.
    unfold ellipse_mask, pixel. rewrite Hneg. cbn [np_zeros nd_data]. apply nth_repeat.
  - destruct (border_sum_positive _ _ _ Hmask Hh Hw) as (total & -> & Hiff).
    rewrite <- Hiff. destruct (Z.gtb_spec total 0); simpl.
    + split; [lia|reflexivity].
    + split; [discriminate|lia].
Qed.

Lemma reference_uint8_mask h w m :
  nd_shape m = [h; w] -> List.length (nd_data m) = (h * w)%nat ->
  forallb (fun v => (0 <=? v) && (v <=? 255)) (nd_data m) = true ->
  uint8_mask h w m.
Proof.
  intros Hs Hl Hall. repeat split; try assumption.
  apply Forall_forall. intros v Hv.
  rewrite forallb_forall in Hall. specialize (Hall v Hv). lia.
Qed.

Lemma ellipse_rejects_exactly_edge_touching_witness :
  fst (ellipse (cv := Reference.cv) 2 2 2 1 0 (np_zeros 5 6) W0) = Raised BoundsError.
Proof.
  apply (ellipse_rejects_exactly_edge_touching (cv := Reference.cv)
           2 2 2 1 0 (np_zeros 5 6) 5 6 W0 eq_refl); [lia|lia| |].
  - apply reference_uint8_mask; reflexivity.
  - exists 0%nat, 2%nat. unfold on_edge. repeat split; [lia|lia|now left|].
    vm_compute. discriminate.
Defined.

Lemma reference_flood_foreground fuel m work seen :
  Forall (fun p => Reference.foreground m p = true) seen ->
  Forall (fun p => Reference.foreground m p = true) (Reference.flood fuel m work seen).
Proof.
  revert work seen. induction fuel as [|fuel IH]; intros work seen Hseen; simpl;
    [assumption|].
  destruct work as [|p rest]; [assumption|].
  destruct (Reference.foreground m p) eqn:Hp; simpl; [|now apply IH].
  destruct (negb (Reference.mem p seen)); apply IH; [|assumption].
  now constructor.
Qed.

Lemma reference_components_foreground m :
  Forall (Forall (fun p => Reference.foreground m p = true)) (Reference.components m).
Proof.
  unfold Reference.components.
  destruct (nd_shape m) as [|h [|w [|? ?]]]; try constructor.
  assert (Hgen : forall ps comps,
             Forall (Forall (fun p => Reference.foreground m p = true)) comps ->
             Forall (Forall (fun p => Reference.foreground m p = true))
               (fold_left
                  (fun comps p =>
                     if Reference.foreground m p && negb (existsb (Reference.mem p) comps)
                     then comps ++ [Reference.flood (9 * (h * w) + 1) m [p] []]
                     else comps) ps comps)).
  { induction ps as [|p ps IH]; intros comps Hc; simpl; [assumption|].
    apply IH. destruct (_ && _); [|assumption].
    apply Forall_app. split; [assumption|].
    constructor; [|constructor]. apply reference_flood_foreground. constructor. }
  apply Hgen. constructor.
Qed.

Lemma reference_mem_In p l : Reference.mem p l = true -> In p l.
Proof.
  unfold Reference.mem. rewrite existsb_exists. intros (q & Hq & Heq).
  unfold Reference.point_eqb in Heq. apply andb_true_iff in Heq as [H1 H2].
  apply Z.eqb_eq in H1, H2. destruct p, q. simpl in *. now subst.
Qed.

Lemma reference_contours_on_foreground : contours_on_foreground Reference.cv.
Proof.
  intros m mode method h w Hshape. simpl. unfold Reference.findContours. simpl.
  apply Forall_map, Forall_forall. intros comp Hcomp.
  pose proof (reference_components_foreground m) as Hfg.
  rewrite Forall_forall in Hfg. specialize (Hfg comp Hcomp).
  rewrite Forall_forall in Hfg.
  unfold Reference.contour_of. rewrite Hshape.
  apply Forall_forall. intros p Hp. apply filter_In in Hp as [Hp Hsel].
  apply andb_true_iff in Hsel as [Hmem _].
  apply reference_mem_In, Hfg in Hmem.
  unfold Reference.all_pixels in Hp.
  apply in_flat_map in Hp as (y & Hy & Hp). apply in_map_iff in Hp as (x & <- & Hx).
  apply in_seq in Hy, Hx. exists x, y. repeat split; try lia.
  unfold Reference.foreground, Reference.value in Hmem. rewrite Hshape in Hmem.
  simpl fst in Hmem. simpl snd in Hmem.
  replace ((0 <=? Z.of_nat x) && (Z.of_nat x <? Z.of_nat w)
           && (0 <=? Z.of_nat y) && (Z.of_nat y <? Z.of_nat h)) with true in Hmem
    by (symmetry; repeat (apply andb_true_iff; split); lia).
  rewrite !Nat2Z.id in Hmem. unfold pixel.
  apply negb_true_iff, Z.eqb_neq in Hmem. assumption.
Qed.

(** X9.  What the edge test buys: when contour extraction returns set pixels
    of the mask, every contour point of an accepted ellipse lies strictly
    inside the image, off its first and last rows and columns. *)
Theorem accepted_ellipse_clear_of_edges {cv : Cv2}
    x y r1 r2 angle img height width W roi :
  contours_on_foreground cv ->
  np_shape2 img = Some (height, width) ->
  uint8_mask height width (ellipse_mask x y r1 r2 angle height width) ->
  fst (ellipse x y r1 r2 angle img W) = Ok roi ->
  Forall (Forall (clear_of_edges height width)) (fst roi).
Proof.
  intros Hfg Hshape Hmask. rewrite ellipse_run, Hshape.
  destruct ((r1 <? 0) || (r2 <? 0)); [discriminate|].
  pose proof Hmask as (Hms & _ & _).
  destruct (Nat.eq_dec height 0) as [->|Hh].
  { unfold border_sum. rewrite Hms. simpl. discriminate. }
  destruct (Nat.eq_dec width 0) as [->|Hw].
  { unfold border_sum. rewrite Hms, Nat.eqb_refl, orb_true_r. simpl. discriminate. }
  destruct (border_sum_positive _ _ _ Hmask ltac:(lia) ltac:(lia)) as (total & -> & Hiff).
  destruct (Z.gtb_spec total 0) as [|Hle]; simpl; [discriminate|].
  intros [= <-]. unfold tree.
  specialize (Hfg (ellipse_mask x y r1 r2 angle height width)
                  RETR_TREE CHAIN_APPROX_NONE height width Hms).
  eapply Forall_impl; [|exact Hfg]. intros c Hc.
  eapply Forall_impl; [|exact Hc]. intros p (px & py & -> & Hx & Hy & Hnz).
  assert (Hoff : ~ on_edge height width px py).
  { intros Hedge. assert (0 < total); [|lia].
    apply Hiff. exists px, py. auto. }
  unfold on_edge in Hoff. unfold clear_of_edges. simpl. lia.
Qed.

Lemma accepted_ellipse_clear_of_edges_witness :
  Forall (Forall (clear_of_edges 5 7))
    [[(3, 1); (1, 2); (2, 2); (4, 2); (5, 2); (3, 3)]].
Proof.
  apply (accepted_ellipse_clear_of_edges (cv := Reference.cv)
           3 2 2 1 0 (np_zeros 5 7) 5 7 W0
           ([[(3, 1); (1, 2); (2, 2); (4, 2); (5, 2); (3, 3)]], [(-1, -1, -1, -1)])
           reference_contours_on_foreground eq_refl).
  - apply reference_uint8_mask; reflexivity.
  - vm_compute. reflexivity.
Defined.

(** ** The two modes of [multi] *)

Lemma grid_plan_centres cx cy s nr nc :
  grid_plan cx cy (Some s) (Some nr) (Some nc) = Centres (grid_centres cx cy s nr nc).
Proof.
  unfold grid_plan, grid_centres. destruct (Z.leb_spec nr 0) as [Hle|]; [|reflexivity].
  now rewrite (py_range_nonpos nr Hle).
Qed.

Lemma multi_plan_grid cx cy s nr nc :
  multi_plan (CoordTuple cx cy) (Some s) (Some nr) (Some nc)
  = Centres (grid_centres cx cy s nr nc).
Proof.
  unfold multi_plan. rewrite <- grid_plan_centres. now destruct nr.
Qed.

(** X10.  A grid call is the list call on the centres of the grid in
    row-major order: same result and same context afterwards, whatever the
    counts (a non-positive count gives the empty list). *)
Theorem multi_grid_is_list_of_grid_centres {cv : Cv2}
    img cx cy radius s nr nc spacing W :
  multi img (CoordTuple cx cy) radius (Some s) (Some nr) (Some nc) W
  = multi img (CoordList (grid_centres cx cy s nr nc)) radius spacing None None W.
Proof.
  rewrite !multi_cases. destruct (np_shape2 img) as [[height width]|]; [|reflexivity].
  now rewrite multi_plan_grid.
Qed.

Lemma multi_list_returns {cv : Cv2} img l radius spacing W r height width :
  np_shape2 img = Some (height, width) ->
  fst (multi img (CoordList l) radius spacing None None W) = Ok r ->
  forallb (placeable radius height width) l = true
  /\ fst r = map (fun m => fst (external m)) (masks radius (np_zeros height width) l)
  /\ snd r = map (fun m => snd (external m)) (masks radius (np_zeros height width) l).
Proof.
  intros Hshape Hok.
  destruct (multi_entries _ _ _ _ _ _ _ _ Hok) as (h' & w' & cs & Hs & Hplan & Hin & H1 & H2).
  rewrite Hshape in Hs. injection Hs as <- <-.
  simpl in Hplan. injection Hplan as <-. auto.
Qed.

(** X11.  The lists a list call returns have one entry per centre, and entry
    [k] is what contour extraction finds on the one shared mask after circles
    [0..k] were drawn on it: the contours are extracted from an accumulating
    mask, not from a mask per circle. *)
Theorem multi_entry_from_cumulative_mask {cv : Cv2}
    img l radius spacing W r height width :
  np_shape2 img = Some (height, width) ->
  fst (multi img (CoordList l) radius spacing None None W) = Ok r ->
  List.length (fst r) = List.length l
  /\ List.length (snd r) = List.length l
  /\ forall k, (k < List.length l)%nat ->
       nth_error (fst r) k
       = Some (fst (external (drawn_on radius (np_zeros height width) (firstn (S k) l))))
       /\ nth_error (snd r) k
          = Some (snd (external (drawn_on radius (np_zeros height width) (firstn (S k) l)))).
Proof.
  intros Hshape Hok.
  destruct (multi_list_returns _ _ _ _ _ _ _ _ Hshape Hok) as (_ & -> & ->).
  rewrite !length_map, length_masks. repeat split.
  - rewrite nth_error_map, nth_error_masks by assumption. reflexivity.
  - rewrite nth_error_map, nth_error_masks by assumption. reflexivity.
Qed.

Lemma multi_entry_from_cumulative_mask_witness :
  exists r,
    fst (multi (cv := Reference.cv) (np_zeros 5 12) (CoordList [(2, 2); (7, 2)]) 1
           None None None W0) = Ok r
    /\ nth_error (fst r) 1
       = Some [[(2, 1); (1, 2); (3, 2); (2, 3)]; [(7, 1); (6, 2); (8, 2); (7, 3)]].
Proof.
  eexists. split; [vm_compute; reflexivity|].
  exact (proj1 (proj2 (proj2
           (multi_entry_from_cumulative_mask (cv := Reference.cv)
              (np_zeros 5 12) [(2, 2); (7, 2)] 1 None W0 _ 5 12 eq_refl eq_refl))
           1%nat (Nat.lt_succ_diag_r 1))).
Defined.

Lemma masks_app {cv : Cv2} radius m l1 l2 :
  masks radius m (l1 ++ l2)
  = masks radius m l1 ++ masks radius (drawn_on radius m l1) l2.
Proof.
  revert m. induction l1 as [|c t IH]; intros m; simpl; [reflexivity|].
  now rewrite IH.
Qed.

(** X12.  Centres added at the end of the list leave the earlier entries as
    they are: the call on [l1 ++ l2], when it returns, returns the entries of
    the call on [l1] followed by one entry per centre of [l2]. *)
Theorem multi_longer_list_keeps_entries {cv : Cv2}
    img l1 l2 radius spacing W r :
  l1 <> [] ->
  fst (multi img (CoordList (l1 ++ l2)) radius spacing None None W) = Ok r ->
  exists r1,
    fst (multi img (CoordList l1) radius spacing None None W) = Ok r1
    /\ fst r1 = firstn (List.length l1) (fst r)
    /\ snd r1 = firstn (List.length l1) (snd r)
    /\ List.length (fst r) = (List.length l1 + List.length l2)%nat.
Proof.
  intros Hne Hok.
  destruct (multi_returns _ _ _ _ _ _ _ _ Hok) as (height & width & cs & Hshape & Hplan & _).
  destruct (multi_list_returns _ _ _ _ _ _ _ _ Hshape Hok) as (Hin & H1 & H2).
  rewrite forallb_app in Hin. apply andb_true_iff in Hin as [Hin1 _].
  exists (map (fun m => fst (external m)) (masks radius (np_zeros height width) l1),
          map (fun m => snd (external m)) (masks radius (np_zeros height width) l1)).
  rewrite H1, H2, masks_app, !map_app. simpl fst. simpl snd.
  repeat split.
  - rewrite multi_cases, Hshape. simpl multi_plan. cbv iota. rewrite Hin1. cbv zeta.
    rewrite steps_roi_contour, steps_roi_hierarchy, steps_roi_contour1.
    destruct l1 as [|c t]; [contradiction|]. simpl.
    destruct (debug (params W)); reflexivity.
  - rewrite firstn_app, length_map, length_masks, Nat.sub_diag. simpl.
    rewrite app_nil_r, firstn_all2; [reflexivity|]. now rewrite length_map, length_masks.
  - rewrite firstn_app, length_map, length_masks, Nat.sub_diag. simpl.
    rewrite app_nil_r, firstn_all2; [reflexivity|]. now rewrite length_map, length_masks.
  - now rewrite length_app, !length_map, !length_masks.
Qed.

Lemma multi_longer_list_keeps_entries_witness :
  exists r r1,
    fst (multi (cv := Reference.cv) (np_zeros 5 12) (CoordList ([(2, 2)] ++ [(7, 2)])) 1
           None None None W0) = Ok r
    /\ fst (multi (cv := Reference.cv) (np_zeros 5 12) (CoordList [(2, 2)]) 1
              None None None W0) = Ok r1
    /\ fst r1 = firstn 1 (fst r).
Proof.
  eexists.
  destruct (multi_longer_list_keeps_entries (cv := Reference.cv)
              (np_zeros 5 12) [(2, 2)] [(7, 2)] 1 None W0 _
              ltac:(discriminate) eq_refl) as (r1 & H1 & H2 & _).
  exists r1. split; [reflexivity|]. split; [exact H1| exact H2].
Defined.

(** X13.  A call that selects no centre at all (an empty list of centres, a
    grid without rows) counts itself and places nothing; with the debug mode
    off it returns two empty lists, with the debug mode on it fails on the
    variable [roi_contour1], which only a placed circle binds, after the
    debug mode has been restored. *)
Theorem multi_without_circles {cv : Cv2}
    img coord radius spacing nrows ncols W height width :
  np_shape2 img = Some (height, width) ->
  multi_plan coord spacing nrows ncols = Centres [] ->
  multi img coord radius spacing nrows ncols W
  = (match debug (params W) with
     | None => Ok ([], [])
     | Some _ => Raised (UnboundLocalError "roi_contour1")
     end, bump W).
Proof.
  intros Hshape Hplan. rewrite multi_cases, Hshape, Hplan. simpl.
  destruct W as [[d g o] outs]. destruct g; reflexivity.
Qed.

Lemma multi_without_circles_witness :
  multi (cv := Reference.cv) (np_zeros 5 12) (CoordList []) 1 None None None Wplot
  = (Raised (UnboundLocalError "roi_contour1"), bump Wplot).
Proof.
  exact (multi_without_circles (cv := Reference.cv)
           (np_zeros 5 12) (CoordList []) 1 None None None Wplot 5 12 eq_refl eq_refl).
Defined.

(** X14.  A grid with at least one row and the default [spacing=None] raises
    [TypeError] at the first row, before any circle is placed: the call has
    counted itself once and leaves the debug mode off. *)
Theorem multi_grid_without_spacing {cv : Cv2}
    img cx cy radius nr nc W height width :
  np_shape2 img = Some (height, width) ->
  0 < nr ->
  multi img (CoordTuple cx cy) radius None (Some nr) (Some nc) W
  = (Raised TypeError, suppressed W).
Proof.
  intros Hshape Hnr. rewrite multi_cases, Hshape.
  unfold multi_plan, grid_plan.
  replace (is_not_None (py_and (Some nr) (Some nc))) with true by now destruct nr.
  destruct (Z.leb_spec nr 0); [lia|reflexivity].
Qed.

Lemma multi_grid_without_spacing_witness :
  multi (cv := Reference.cv) (np_zeros 5 12) (CoordTuple 2 2) 1 None (Some 1) (Some 0) Wplot
  = (Raised TypeError, suppressed Wplot).
Proof.
  apply (multi_grid_without_spacing (cv := Reference.cv)
           (np_zeros 5 12) 2 2 1 1 0 Wplot 5 12 eq_refl).
  lia.
Defined.

Lemma leading_stop {X : Type} (f : X -> bool) l1 c l2 :
  f c = false -> leading f (l1 ++ c :: l2) = leading f (l1 ++ [c]).
Proof.
  intros Hc. induction l1 as [|a t IH]; simpl; [now rewrite Hc|].
  destruct (f a); [now rewrite IH|reflexivity].
Qed.

Lemma forallb_stop {X : Type} (f : X -> bool) l1 c l2 :
  f c = false -> forallb f (l1 ++ c :: l2) = false.
Proof.
  intros Hc. rewrite forallb_app. simpl. rewrite Hc. apply andb_false_r.
Qed.

Lemma first_failure_stop radius height width l1 c l2 :
  placeable radius height width c = false ->
  first_failure radius height width (l1 ++ c :: l2)
  = first_failure radius height width (l1 ++ [c]).
Proof.
  intros Hc. induction l1 as [|a t IH]; simpl; [now rewrite Hc|].
  now destruct (placeable radius height width a).
Qed.

Lemma first_failure_nonneg radius height width cs :
  0 <= radius -> forallb (placeable radius height width) cs = false ->
  first_failure radius height width cs = BoundsError.
Proof.
  intros Hr. induction cs as [|c t IH]; simpl; [discriminate|].
  destruct (placeable radius height width c) eqn:Hc; [exact IH|]. intros _.
  rewrite placeable_nonneg in Hc by assumption.
  unfold placement_error. now rewrite Hc.
Qed.

(** X15.  The loop stops at the first centre that fails the circle builder's
    bounds check: the centres listed after it are never looked at, so the
    outcome and the context are those of the call without them.  The call
    raises the bounds error when the radius is not negative; with a negative
    radius it raises the bounds error or, when an earlier centre passed the
    bounds check, the error of [cv2.circle]. *)
Theorem multi_stops_at_first_outside_centre {cv : Cv2}
    img l1 c l2 radius spacing W height width :
  np_shape2 img = Some (height, width) ->
  circle_outside (fst c) (snd c) radius height width = true ->
  multi img (CoordList (l1 ++ c :: l2)) radius spacing None None W
  = multi img (CoordList (l1 ++ [c])) radius spacing None None W
  /\ (fst (multi img (CoordList (l1 ++ c :: l2)) radius spacing None None W)
      = Raised BoundsError
      \/ fst (multi img (CoordList (l1 ++ c :: l2)) radius spacing None None W)
         = Raised Cv2Error)
  /\ (0 <= radius ->
      fst (multi img (CoordList (l1 ++ c :: l2)) radius spacing None None W)
      = Raised BoundsError).
Proof.
  intros Hshape Hout.
  assert (Hc : placeable radius height width c = false)
    by (unfold placeable, inside; now rewrite Hout).
  rewrite !multi_cases, Hshape. simpl multi_plan. cbv iota.
  rewrite !forallb_stop by assumption.
  rewrite (leading_stop _ l1 c l2 Hc), (first_failure_stop _ _ _ l1 c l2 Hc).
  split; [reflexivity|]. cbn [fst]. split.
  - destruct (first_failure_cases radius height width (l1 ++ [c])) as [-> | ->]; auto.
  - intros Hr. rewrite first_failure_nonneg; [reflexivity|assumption|].
    now apply forallb_stop.
Qed.

Lemma multi_stops_at_first_outside_centre_witness :
  multi (cv := Reference.cv) (np_zeros 5 12) (CoordList ([(2, 2)] ++ (0, 0) :: [(7, 2)])) 1
    None None None W0
  = multi (cv := Reference.cv) (np_zeros 5 12) (CoordList ([(2, 2)] ++ [(0, 0)])) 1
      None None None W0.
Proof.
  exact (proj1 (multi_stops_at_first_outside_centre (cv := Reference.cv)
                  (np_zeros 5 12) [(2, 2)] (0, 0) [(7, 2)] 1 None W0 5 12
                  eq_refl eq_refl)).
Defined.

(** X16.  With a radius that is not negative, a list call raises the bounds
    error exactly when one of the listed centres fails the circle builder's
    bounds check.  With a negative radius a call on a non-empty list never
    returns: it fails at the first centre, with the bounds error when that
    centre fails the bounds check and with the error of [cv2.circle]
    otherwise. *)
Theorem multi_list_bounds_error_iff {cv : Cv2} img l radius spacing W height width :
  np_shape2 img = Some (height, width) ->
  (0 <= radius ->
   (fst (multi img (CoordList l) radius spacing None None W) = Raised BoundsError
    <-> exists c, In c l /\ circle_outside (fst c) (snd c) radius height width = true))
  /\ (radius < 0 ->
      forall c t, l = c :: t ->
      fst (multi img (CoordList l) radius spacing None None W)
      = Raised (if circle_outside (fst c) (snd c) radius height width
                then BoundsError else Cv2Error)).
Proof.
  intros Hshape. rewrite multi_cases, Hshape. simpl multi_plan. cbv iota. split.
  - intros Hr.
    destruct (forallb (placeable radius height width) l) eqn:Hall.
    + split.
      * cbv zeta. destruct (debug (params W)); [|discriminate].
        destruct (l_roi_contour1 _); discriminate.
      * intros (c & Hc & Hout). rewrite forallb_forall in Hall.
        specialize (Hall c Hc). apply placeable_inside in Hall as [Hall _].
        unfold inside in Hall. rewrite Hout in Hall. discriminate.
    + cbn [fst]. rewrite first_failure_nonneg by assumption.
      split; [|reflexivity]. intros _.
      destruct (forallb_forall (placeable radius height width) l) as [_ Hback].
      destruct (existsb (fun c => circle_outside (fst c) (snd c) radius height width) l)
        eqn:Hex.
      * apply existsb_exists in Hex. exact Hex.
      * rewrite Hback in Hall; [discriminate|]. intros c Hc.
        rewrite placeable_nonneg by assumption. unfold inside.
        destruct (circle_outside (fst c) (snd c) radius height width) eqn:Hout;
          [|reflexivity].
        assert (existsb (fun c => circle_outside (fst c) (snd c) radius height width) l
                = true) by (apply existsb_exists; eauto).
        congruence.
  - intros Hneg c t ->. cbn [forallb first_failure].
    rewrite placeable_negative by assumption. cbn [andb fst].
    unfold placement_error, inside.
    now destruct (circle_outside (fst c) (snd c) radius height width).
Qed.

Lemma multi_list_bounds_error_iff_witness :
  fst (multi (cv := Reference.cv) (np_zeros 5 12) (CoordList [(2, 2); (12, 2)]) 1
         None None None W0) = Raised BoundsError
  /\ fst (multi (cv := Reference.cv) (np_zeros 5 12) (CoordList [(2, 2); (50, 2)]) (-1)
            None None None W0) = Raised Cv2Error.
Proof.
  split.
  - apply (proj1 (multi_list_bounds_error_iff (cv := Reference.cv)
                    (np_zeros 5 12) [(2, 2); (12, 2)] 1 None W0 5 12 eq_refl));
      [lia|].
    exists (12, 2). split; [right; now left|reflexivity].
  - apply (proj2 (multi_list_bounds_error_iff (cv := Reference.cv)
                    (np_zeros 5 12) [(2, 2); (50, 2)] (-1) None W0 5 12 eq_refl)
             ltac:(lia) (2, 2) [(50, 2)] eq_refl).
Defined.

(** ** What is drawn, and what of the reference image is read *)

Lemma drew_shows img cs W :
  drawing_mode (debug (params W)) -> shows img cs W (drew img cs (bump W)).
Proof.
  intros Hmode. unfold shows. rewrite outputs_drew, outputs_bump.
  unfold draw_output. rewrite debug_bump.
  destruct Hmode as [-> | ->]; simpl; eexists; (split; [reflexivity|reflexivity]).
Qed.

(** X17.  In the debug modes "print" and "plot" a returning call of one of the
    four single-ROI builders sends out one picture: the contours it returns,
    on the reference image (turned into three channels when it is grey). *)
Theorem drawing_shows_returned_contours {cv : Cv2} (W : World) :
  drawing_mode (debug (params W)) ->
  (forall bin_img img roi,
      fst (from_binary_image bin_img img W) = Ok roi ->
      shows img (fst roi) W (snd (from_binary_image bin_img img W)))
  /\ (forall x y h w img roi,
      fst (rectangle x y h w img W) = Ok roi ->
      shows img (fst roi) W (snd (rectangle x y h w img W)))
  /\ (forall x y r img roi,
      fst (circle x y r img W) = Ok roi ->
      shows img (fst roi) W (snd (circle x y r img W)))
  /\ (forall x y r1 r2 angle img roi,
      fst (ellipse x y r1 r2 angle img W) = Ok roi ->
      shows img (fst roi) W (snd (ellipse x y r1 r2 angle img W))).
Proof.
  intros Hmode. repeat split.
  - intros bin_img img roi. rewrite from_binary_image_run.
    destruct (_ =? _)%nat; [|discriminate]. intros [= <-]. now apply drew_shows.
  - intros x y h w img roi. rewrite rectangle_run.
    destruct (np_shape2 img) as [[hh ww]|]; [|discriminate].
    destruct (rectangle_outside _ _ _ _ _ _); [discriminate|].
    destruct (vertices_fit _); [|discriminate]. intros [= <-]. now apply drew_shows.
  - intros x y r img roi. rewrite circle_run.
    destruct (np_shape2 img) as [[hh ww]|]; [|discriminate].
    destruct (circle_outside _ _ _ _ _); [discriminate|].
    destruct (r <? 0); [discriminate|].
    intros [= <-]. now apply drew_shows.
  - intros x y r1 r2 angle img roi. rewrite ellipse_run.
    destruct (np_shape2 img) as [[hh ww]|]; [|discriminate].
    destruct ((r1 <? 0) || (r2 <? 0)); [discriminate|].
    destruct (border_sum _) as [total|]; [|discriminate].
    destruct (total >? 0); [discriminate|].
    intros [= <-]. now apply drew_shows.
Qed.

Lemma drawing_shows_returned_contours_witness :
  shows (np_zeros 5 9) [[(1, 1); (1, 2); (3, 2); (3, 1)]] Wplot
    (snd (rectangle 1 1 2 3 (np_zeros 5 9) Wplot)).
Proof.
  exact (proj1 (proj2 (drawing_shows_returned_contours (cv := Reference.cv) Wplot
                         (or_intror eq_refl)))
           1 1 2 3 (np_zeros 5 9)
           ([[(1, 1); (1, 2); (3, 2); (3, 1)]], [(-1, -1, -1, -1)]) eq_refl).
Defined.

Lemma steps_bin_img {cv : Cv2} radius height width cs L :
  l_bin_img (fold_left (step radius height width) cs L)
  = drawn_on radius (l_bin_img L) cs.
Proof.
  revert L. induction cs as [|c t IH]; intros L; simpl; [reflexivity|].
  now rewrite IH.
Qed.

(** X18.  In the debug modes "print" and "plot" a returning list call sends
    out one picture: the contours extracted in tree mode ([RETR_TREE]) from
    the final shared mask, on which all the circles were drawn, on the
    reference image. *)
Theorem multi_drawing_shows_final_mask {cv : Cv2}
    img l radius spacing W r height width :
  drawing_mode (debug (params W)) ->
  np_shape2 img = Some (height, width) ->
  fst (multi img (CoordList l) radius spacing None None W) = Ok r ->
  shows img (fst (tree (drawn_on radius (np_zeros height width) l))) W
    (snd (multi img (CoordList l) radius spacing None None W)).
Proof.
  intros Hmode Hshape. rewrite multi_cases, Hshape. simpl multi_plan. cbv iota.
  destruct (forallb (placeable radius height width) l); [|discriminate]. cbv zeta.
  rewrite steps_roi_contour1, steps_bin_img.
  assert (Hon : exists mode, debug (params W) = Some mode)
    by (destruct Hmode as [H|H]; rewrite H; eauto).
  destruct Hon as (mode & Hdbg). rewrite Hdbg.
  destruct l as [|c t]; [discriminate|]. intros _. cbn [snd L0 l_bin_img].
  unfold shows. autorewrite with world. unfold draw_output. autorewrite with world.
  rewrite Hdbg in Hmode.
  destruct Hmode as [[= ->] | [= ->]]; simpl; eexists; (split; [reflexivity|reflexivity]).
Qed.

Lemma multi_drawing_shows_final_mask_witness :
  shows (np_zeros 5 12)
    [[(2, 1); (1, 2); (3, 2); (2, 3)]; [(7, 1); (6, 2); (8, 2); (7, 3)]] Wplot
    (snd (multi (cv := Reference.cv) (np_zeros 5 12) (CoordList [(2, 2); (7, 2)]) 1
            None None None Wplot)).
Proof.
  exact (multi_drawing_shows_final_mask (cv := Reference.cv)
           (np_zeros 5 12) [(2, 2); (7, 2)] 1 None Wplot _ 5 12
           (or_intror eq_refl) eq_refl eq_refl).
Defined.

(** X19.  With the debug mode off, a builder reads of the reference image the
    extents and nothing else: [from_binary_image] returns the same for any
    reference image, and the other builders return the same, or raise the same
    error, on two images whose first two extents agree. *)
Theorem result_depends_on_image_extents_only {cv : Cv2} (img1 img2 : ndarray) (W : World) :
  debug (params W) = None ->
  np_shape2 img1 = np_shape2 img2 ->
  (forall bin_img img img',
      fst (from_binary_image bin_img img W) = fst (from_binary_image bin_img img' W))
  /\ (forall x y h w, fst (rectangle x y h w img1 W) = fst (rectangle x y h w img2 W))
  /\ (forall x y r, fst (circle x y r img1 W) = fst (circle x y r img2 W))
  /\ (forall x y r1 r2 angle,
      fst (ellipse x y r1 r2 angle img1 W) = fst (ellipse x y r1 r2 angle img2 W))
  /\ (forall coord radius spacing nrows ncols,
      fst (multi img1 coord radius spacing nrows ncols W)
      = fst (multi img2 coord radius spacing nrows ncols W)).
Proof.
  intros Hoff Hsame. repeat split.
  - intros. rewrite !from_binary_image_run. now destruct (_ =? _)%nat.
  - intros. rewrite !rectangle_run, Hsame.
    destruct (np_shape2 img2) as [[hh ww]|]; [|reflexivity].
    destruct (rectangle_outside _ _ _ _ _ _); [reflexivity|].
    now destruct (vertices_fit _).
  - intros. rewrite !circle_run, Hsame.
    destruct (np_shape2 img2) as [[hh ww]|]; [|reflexivity].
    destruct (circle_outside _ _ _ _ _); [reflexivity|].
    now destruct (r <? 0).
  - intros. rewrite !ellipse_run, Hsame.
    destruct (np_shape2 img2) as [[hh ww]|]; [|reflexivity].
    destruct ((r1 <? 0) || (r2 <? 0)); [reflexivity|].
    destruct (border_sum _) as [total|]; [|reflexivity].
    now destruct (total >? 0).
  - intros. rewrite !multi_cases, Hsame.
    destruct (np_shape2 img2) as [[height width]|]; [|reflexivity].
    destruct (multi_plan coord spacing nrows ncols) as [cs| |]; try reflexivity.
    destruct (forallb (placeable radius height width) cs); [|reflexivity].
    cbv zeta. now rewrite Hoff.
Qed.

Lemma result_depends_on_image_extents_only_witness :
  fst (circle (cv := Reference.cv) 2 2 1 (np_zeros 5 9) W0)
  = fst (circle (cv := Reference.cv) 2 2 1
           {| nd_shape := [5; 9; 3]%nat; nd_data := repeat 200 135 |} W0).
Proof.
  exact (proj1 (proj2 (proj2
           (result_depends_on_image_extents_only (cv := Reference.cv)
              (np_zeros 5 9) {| nd_shape := [5; 9; 3]%nat; nd_data := repeat 200 135 |}
              W0 eq_refl eq_refl))) 2 2 1).
Defined.

(** X20.  On an image whose extents fit the [int32] contour array, a
    rectangle of at least one row and one column never meets the overflow:
    the call returns the four vertices exactly when they all are pixels of
    the image. *)
Theorem rectangle_returns_exactly_in_image x y h w img height width W :
  np_shape2 img = Some (height, width) ->
  1 <= h -> 1 <= w ->
  Z.of_nat height <= int32_max + 1 -> Z.of_nat width <= int32_max + 1 ->
  (fst (rectangle x y h w img W)
   = Ok ([rectangle_vertices x y h w], [(-1, -1, -1, -1)])
   <-> Forall (in_image height width) (rectangle_vertices x y h w)).
Proof.
  intros Hshape Hh Hw Hheight Hwidth. rewrite rectangle_run, Hshape.
  pose proof (rectangle_outside_spec x y h w height width) as Hspec.
  unfold int32_max in *.
  destruct (rectangle_outside x y h w height width).
  - split; [discriminate|]. intros H. exfalso.
    assert (Hout : x < 0 \/ y < 0 \/ x + w > Z.of_nat width \/ y + h > Z.of_nat height)
      by now apply Hspec.
    unfold rectangle_vertices in H.
    inversion_clear H as [|? ? H1 H']. inversion_clear H' as [|? ? H2 H''].
    inversion_clear H'' as [|? ? H3 H4]. unfold in_image in *. simpl in *. lia.
  - assert (Hin : 0 <= x /\ 0 <= y /\ x + w <= Z.of_nat width /\ y + h <= Z.of_nat height).
    { destruct (Z_lt_dec x 0); [exfalso; assert (false = true) by (apply Hspec; auto);
                                discriminate|].
      destruct (Z_lt_dec y 0); [exfalso; assert (false = true) by (apply Hspec; auto);
                                discriminate|].
      destruct (Z_gt_dec (x + w) (Z.of_nat width));
        [exfalso; assert (false = true) by (apply Hspec; auto); discriminate|].
      destruct (Z_gt_dec (y + h) (Z.of_nat height));
        [exfalso; assert (false = true) by (apply Hspec; auto); discriminate|].
      lia. }
    assert (Hfit : vertices_fit (rectangle_vertices x y h w) = true).
    { unfold vertices_fit, rectangle_vertices, fits_int32, int32_min, int32_max.
      cbn [forallb fst snd]. rewrite !andb_true_iff, !Z.leb_le. lia. }
    rewrite Hfit. split; [|reflexivity]. intros _.
    unfold rectangle_vertices, in_image. repeat constructor; simpl; lia.
Qed.

Lemma rectangle_returns_exactly_in_image_witness :
  fst (rectangle 1 1 2 3 (np_zeros 5 9) W0)
  = Ok ([rectangle_vertices 1 1 2 3], [(-1, -1, -1, -1)]).
Proof.
  apply (rectangle_returns_exactly_in_image 1 1 2 3 (np_zeros 5 9) 5 9 W0 eq_refl);
    [lia|lia|unfold int32_max; lia|unfold int32_max; lia|].
  unfold rectangle_vertices, in_image. repeat constructor; simpl; lia.
Defined.

(** ** Calls made one after another *)

(** X21.  After any run of builder calls, whatever each of them returned or
    raised, the device counter has advanced by the number of calls plus the
    number of circle-builder calls made inside them, and the output directory
    is the one set before. *)
Theorem counter_after_calls {cv : Cv2} (cs : list Call) (W : World) :
  device (params (after_calls cs W))
  = device (params W) + Z.of_nat (List.length cs) + Z.of_nat (inner_calls cs)
  /\ debug_outdir (params (after_calls cs W)) = debug_outdir (params W).
Proof.
  revert W. induction cs as [|c t IH]; intros W; cbn [after_calls inner_calls fold_right].
  - split; [simpl; lia|reflexivity].
  - destruct (IH (snd (run c W))) as [Hd Ho]. rewrite Hd, Ho, run_device, run_outdir.
    fold (inner_calls t). split; [|reflexivity].
    rewrite Nat2Z.inj_add. cbn [List.length]. lia.
Qed.

Lemma counter_after_calls_witness :
  device (params (after_calls (cv := Reference.cv)
                    [Multi (np_zeros 5 12) (CoordList [(2, 2); (7, 2)]) (-1) None None None]
                    W0))
  = 2.
Proof.
  exact (proj1 (counter_after_calls (cv := Reference.cv)
                  [Multi (np_zeros 5 12) (CoordList [(2, 2); (7, 2)]) (-1) None None None]
                  W0)).
Defined.
